(** * Campaign schedules of the ads dashboard (src/app.py)

    A shallow embedding of the schedule part of the Flask application:
    the [CampaignSchedule] model and its [to_dict], the [GET /api/schedule]
    and [POST /api/schedule] handlers, and the schedule loop of
    [POST /api/campaigns].  Python exceptions are an explicit result type;
    the database is an explicit store threaded through the handlers.

    Strings are Rocq [string]s, i.e. sequences of ASCII characters; JSON
    numbers are integers (a fractional JSON number is not modelled). *)

From Stdlib Require Import ZArith String Ascii List Bool Lia.
Import ListNotations.

Set Warnings "-register-all".
Local Open Scope string_scope.
Local Open Scope Z_scope.

(** ** Python values and exceptions *)

Module Py.

  (** The exceptions the modelled code can raise. *)
Inductive exn : Type :=
  | KeyError
  | ValueError
  | TypeError
  | AttributeError
  | IndexError
  (** An error of the database layer (SQLAlchemy or [sqlite3]): a value it
      cannot bind, a NOT NULL violation, a malformed primary-key identity. *)
  | DBError.

(** A Python computation either returns a value or raises. *)
Inductive result (A : Type) : Type :=
  | Ok (a : A)
  | Raise (e : exn).

Arguments Ok {A} a.
Arguments Raise {A} e.

Definition bind {A B} (m : result A) (k : A -> result B) : result B :=
    match m with
    | Ok a => k a
    | Raise e => Raise e
    end.

End Py.

Import Py.

Notation "x <- m ;; k" := (Py.bind m (fun x => k))
  (at level 61, m at next level, right associativity).

(** JSON values as [json.loads] / [request.get_json()] produce them. *)
Inductive json : Type :=
| JNull
| JBool (b : bool)
| JInt (n : Z)
| JStr (s : string)
| JArr (l : list json)
| JObj (kv : list (string * json)).

(** Python truthiness of a JSON value ([not data], [if x:]). *)
Definition truthy (v : json) : bool :=
  match v with
  | JNull => false
  | JBool b => b
  | JInt n => negb (n =? 0)
  | JStr s => negb (String.eqb s "")
  | JArr l => match l with [] => false | _ => true end
  | JObj kv => match kv with [] => false | _ => true end
  end.

(** Dictionary lookup; [json.loads] keeps the last binding of a key. *)
Fixpoint dict_get (kv : list (string * json)) (k : string) : option json :=
  match kv with
  | [] => None
  | (k', v) :: rest =>
      match dict_get rest k with
      | Some w => Some w
      | None => if String.eqb k k' then Some v else None
      end
  end.

(** [d[k]]: [KeyError] on a missing key, [TypeError] on a non-dict. *)
Definition getitem (d : json) (k : string) : result json :=
  match d with
  | JObj kv => match dict_get kv k with
               | Some v => Ok v
               | None => Raise KeyError
               end
  | _ => Raise TypeError
  end.

(** [d.get(k, default)]: [AttributeError] on a non-dict. *)
Definition dict_get_default (d : json) (k : string) (default : json)
  : result json :=
  match d with
  | JObj kv => match dict_get kv k with
               | Some v => Ok v
               | None => Ok default
               end
  | _ => Raise AttributeError
  end.

(** Substring test, for [k in s] on a string. *)
Fixpoint is_prefix (p s : string) : bool :=
  match p, s with
  | EmptyString, _ => true
  | String a p', String b s' => Ascii.eqb a b && is_prefix p' s'
  | String _ _, EmptyString => false
  end.

Fixpoint substring_of (p s : string) : bool :=
  is_prefix p s ||
  match s with
  | EmptyString => false
  | String _ s' => substring_of p s'
  end.

(** [k in d] for a string [k]: key membership on a dict, element
    membership on a list, substring on a string; other values are not
    iterable. *)
Definition py_contains (d : json) (k : string) : result bool :=
  match d with
  | JObj kv => Ok (match dict_get kv k with Some _ => true | None => false end)
  | JArr l => Ok (existsb (fun v => match v with
                                    | JStr s => String.eqb s k
                                    | _ => false
                                    end) l)
  | JStr s => Ok (substring_of k s)
  | _ => Raise TypeError
  end.

(** ** Characters and Python's [int()] *)

Definition digit_val (c : ascii) : option Z :=
  let n := Z.of_nat (nat_of_ascii c) in
  if (48 <=? n) && (n <=? 57) then Some (n - 48) else None.

Definition digit_char (k : Z) : ascii := ascii_of_nat (Z.to_nat (48 + k)).

(** ASCII whitespace stripped by [int()] ([str.isspace]: tab to carriage
    return, the separators 28 to 31 and the space). *)
Definition is_space (c : ascii) : bool :=
  let n := nat_of_ascii c in
  (Nat.eqb n 32 || ((9 <=? n) && (n <=? 13)) || ((28 <=? n) && (n <=? 31)))%nat.

Fixpoint lstrip (s : string) : string :=
  match s with
  | String c s' => if is_space c then lstrip s' else s
  | EmptyString => EmptyString
  end.

Definition strip (s : string) : string :=
  string_of_list_ascii (rev (list_ascii_of_string
    (lstrip (string_of_list_ascii (rev (list_ascii_of_string (lstrip s))))))).

(** Decimal digits with single underscores between digits. *)
Fixpoint dec_rest (s : string) (acc : Z) : option Z :=
  match s with
  | EmptyString => Some acc
  | String c s' =>
      match digit_val c with
      | Some k => dec_rest s' (10 * acc + k)
      | None =>
          if Ascii.eqb c "_"%char then
            match s' with
            | String d s'' =>
                match digit_val d with
                | Some k => dec_rest s'' (10 * acc + k)
                | None => None
                end
            | EmptyString => None
            end
          else None
      end
  end.

Definition dec_digits (s : string) : option Z :=
  match s with
  | String c s' => match digit_val c with
                   | Some k => dec_rest s' k
                   | None => None
                   end
  | EmptyString => None
  end.

(** [int(s)] on a string: whitespace, an optional sign, decimal digits. *)
Definition int_of_str (s : string) : option Z :=
  match strip s with
  | String c s' =>
      if Ascii.eqb c "-"%char then option_map Z.opp (dec_digits s')
      else if Ascii.eqb c "+"%char then dec_digits s'
      else dec_digits (String c s')
  | EmptyString => None
  end.

(** [int(v)] on a JSON value. *)
Definition py_int (v : json) : result Z :=
  match v with
  | JInt n => Ok n
  | JBool b => Ok (if b then 1 else 0)
  | JStr s => match int_of_str s with
              | Some n => Ok n
              | None => Raise ValueError
              end
  | JNull | JArr _ | JObj _ => Raise TypeError
  end.

(** ** [datetime.strptime] for the formats ['%H:%M'] and ['%Y-%m-%d']

    [_strptime] compiles the format into a regular expression, takes the
    first match that Python's backtracking [re.match] finds, raises
    [ValueError] when there is none or when characters remain after it, and
    then checks the calendar.  A group below lists its candidate matches in
    the order of its alternatives, so the first element of a sequenced
    list is the match [re.match] returns. *)

Definition one_digit (ok : Z -> bool) (s : string) : list (Z * string) :=
  match s with
  | String c r =>
      match digit_val c with
      | Some a => if ok a then [(a, r)] else []
      | None => []
      end
  | EmptyString => []
  end.

Definition two_digits (ok : Z -> Z -> bool) (s : string) : list (Z * string) :=
  match s with
  | String c1 (String c2 r) =>
      match digit_val c1, digit_val c2 with
      | Some a, Some b => if ok a b then [(10 * a + b, r)] else []
      | _, _ => []
      end
  | _ => []
  end.

(** The alternative [' [1-9]'] of [%d]: a space, then a digit. *)
Definition space_digit (ok : Z -> bool) (s : string) : list (Z * string) :=
  match s with
  | String c r => if Ascii.eqb c " "%char then one_digit ok r else []
  | EmptyString => []
  end.

(** [(?P<H>2[0-3]|[0-1]\d|\d)] *)
Definition re_H (s : string) : list (Z * string) :=
  (two_digits (fun a b => (a =? 2) && (b <=? 3)) s ++
   two_digits (fun a _ => a <=? 1) s ++
   one_digit (fun _ => true) s)%list.

(** [(?P<M>[0-5]\d|\d)] *)
Definition re_M (s : string) : list (Z * string) :=
  (two_digits (fun a _ => a <=? 5) s ++ one_digit (fun _ => true) s)%list.

(** [(?P<Y>\d\d\d\d)] *)
Definition re_Y (s : string) : list (Z * string) :=
  flat_map (fun '(hi, r) =>
    map (fun '(lo, r') => (100 * hi + lo, r'))
        (two_digits (fun _ _ => true) r))
    (two_digits (fun _ _ => true) s).

(** [(?P<m>1[0-2]|0[1-9]|[1-9])] *)
Definition re_m (s : string) : list (Z * string) :=
  (two_digits (fun a b => (a =? 1) && (b <=? 2)) s ++
   two_digits (fun a b => (a =? 0) && (1 <=? b)) s ++
   one_digit (fun a => 1 <=? a) s)%list.

(** [(?P<d>3[0-1]|[1-2]\d|0[1-9]|[1-9]| [1-9])] *)
Definition re_d (s : string) : list (Z * string) :=
  (two_digits (fun a b => (a =? 3) && (b <=? 1)) s ++
   two_digits (fun a _ => (1 <=? a) && (a <=? 2)) s ++
   two_digits (fun a b => (a =? 0) && (1 <=? b)) s ++
   one_digit (fun a => 1 <=? a) s ++
   space_digit (fun a => 1 <=? a) s)%list.

(** A literal character of the format. *)
Definition lit (c : ascii) (s : string) : option string :=
  match s with
  | String c' r => if Ascii.eqb c c' then Some r else None
  | EmptyString => None
  end.

(** Sequencing of a group after a literal, keeping the priority order. *)
Definition then_lit {A B} (c : ascii) (p : string -> list (B * string))
  (k : A -> B -> A * B) (ms : list (A * string)) : list ((A * B) * string) :=
  flat_map (fun '(a, r) =>
    match lit c r with
    | Some r' => map (fun '(b, r'') => (k a b, r'')) (p r')
    | None => []
    end) ms.

(** The regular expression of ['%H:%M']. *)
Definition re_time (s : string) : list ((Z * Z) * string) :=
  then_lit ":"%char re_M (fun h m => (h, m)) (re_H s).

(** The regular expression of ['%Y-%m-%d']. *)
Definition re_date (s : string) : list ((Z * Z * Z) * string) :=
  flat_map (fun '(ym, r) =>
    match lit "-"%char r with
    | Some r' => map (fun '(d, r'') => ((ym, d), r'')) (re_d r')
    | None => []
    end)
    (then_lit "-"%char re_m (fun y m => (y, m)) (re_Y s)).

(** [found = format_regex.match(s)]; no match, or unconverted data
    remaining, raises [ValueError]. *)
Definition first_full_match {A} (ms : list (A * string)) : result A :=
  match ms with
  | [] => Raise ValueError
  | (a, EmptyString) :: _ => Ok a
  | (_, String _ _) :: _ => Raise ValueError
  end.

(** [datetime.strptime(s, '%H:%M').time()] as (hour, minute). *)
Definition strptime_HM (s : string) : result (Z * Z) :=
  first_full_match (re_time s).

(** The same on a JSON value: a non-string argument raises [TypeError]. *)
Definition py_strptime_time (v : json) : result (Z * Z) :=
  match v with
  | JStr s => strptime_HM s
  | _ => Raise TypeError
  end.

Definition is_leap (y : Z) : bool :=
  (y mod 4 =? 0) && (negb (y mod 100 =? 0) || (y mod 400 =? 0)).

Definition days_in_month (y m : Z) : Z :=
  if m =? 2 then (if is_leap y then 29 else 28)
  else if (m =? 4) || (m =? 6) || (m =? 9) || (m =? 11) then 30
  else 31.

(** [datetime.strptime(s, '%Y-%m-%d').date()] as (year, month, day); the
    [datetime] constructor rejects year 0 and days past the month's end. *)
Definition strptime_YMD (s : string) : result (Z * Z * Z) :=
  ymd <- first_full_match (re_date s) ;;
  let '(y, m, d) := ymd in
  if (1 <=? y) && (d <=? days_in_month y m) then Ok (y, m, d)
  else Raise ValueError.

(** [date.toordinal()]: day 1 is 0001-01-01. *)
Definition days_before_month (y m : Z) : Z :=
  fold_left (fun acc k => acc + days_in_month y k)
    (map Z.of_nat (seq 1 (Z.to_nat (m - 1)))) 0.

Definition toordinal (y m d : Z) : Z :=
  let y' := y - 1 in
  y' * 365 + y' / 4 - y' / 100 + y' / 400 + days_before_month y m + d.

(** [date.weekday()]: Monday is 0, Sunday is 6. *)
Definition weekday (ymd : Z * Z * Z) : Z :=
  let '(y, m, d) := ymd in (toordinal y m d + 6) mod 7.

Example weekday_2024_01_03 : strptime_YMD "2024-01-03" = Ok (2024, 1, 3) /\ weekday (2024, 1, 3) = 2.
Proof. split; reflexivity. Qed.

(** ** The data model *)

(** A row of [campaigns]; dates are kept as their [isoformat()] text. *)
Record Campaign : Type := mkCampaign {
  c_id : Z;
  c_name : json;
  c_description : json;
  c_status : json;
  c_start_date : option string;
  c_end_date : option string;
  c_created_by : Z;
  c_client_id : option Z;
  c_created_at : string;
  c_updated_at : string
}.

(** A row of [campaign_schedules]; times are (hour, minute). *)
Record Schedule : Type := mkSchedule {
  s_id : Z;
  s_campaign_id : Z;
  s_day_of_week : Z;
  s_start_time : Z * Z;
  s_end_time : Z * Z;
  s_is_active : json;
  s_created_at : string
}.

(** A [CampaignSchedule(...)] built by a handler, before the database
    gives it an id and a [created_at]. *)
Record NewSchedule : Type := mkNewSchedule {
  n_campaign_id : Z;
  n_day_of_week : Z;
  n_start_time : Z * Z;
  n_end_time : Z * Z;
  n_is_active : json
}.

(** The database: tables in insertion order, the next autoincrement ids
    and the [datetime.utcnow()] text of the current request. *)
Record DB : Type := mkDB {
  campaigns : list Campaign;
  schedules : list Schedule;
  next_campaign_id : Z;
  next_schedule_id : Z;
  now : string
}.

(** The logged-in user, [User.query.get(session['user_id'])]. *)
Record User : Type := mkUser {
  u_id : Z;
  u_role : string
}.

(** [User.is_admin]. *)
Definition is_admin (u : User) : bool := String.eqb (u_role u) "admin".

(** The campaign row with a given primary key. *)
Definition campaign_by_id (db : DB) (id : Z) : option Campaign :=
  find (fun c => c_id c =? id) (campaigns db).

(** ** The SQLite layer (the default [DATABASE_URL] is [sqlite:///dev.db]) *)

(** [sqlite3] binds a Python int only within 64 bits ([OverflowError]). *)
Definition sqlite_int (n : Z) : result Z :=
  if (- 2 ^ 63 <=? n) && (n <? 2 ^ 63) then Ok n else Raise DBError.

(** Values [sqlite3] binds as parameters: JSON arrays and objects raise. *)
Definition sql_bindable (v : json) : bool :=
  match v with JArr _ | JObj _ => false | _ => true end.

Section SqliteKeys.

(** SQLite's NUMERIC affinity on a text: [Some n] when the text reads as a
    number equal to the integer [n] (such as ['1'], [' 1'], ['1.0'] or
    ['1e0']), [None] when it stays text or is a number equal to no
    integer.  An INTEGER column stores such a text as [n], and a
    comparison [id = :text] compares it as [n]. *)
Variable numeric_text : string -> option Z.

(** The campaign one primary-key value names: [None] names no row
    ([id IS NULL]); a bool is bound as 0 or 1; a nested array or object
    makes the identity key unhashable. *)
Definition pk_lookup (db : DB) (v : json) : result (option Campaign) :=
  match v with
  | JNull => Ok None
  | JBool b => Ok (campaign_by_id db (if b then 1 else 0))
  | JInt n => n' <- sqlite_int n ;; Ok (campaign_by_id db n')
  | JStr s => Ok (match numeric_text s with
                  | Some n => campaign_by_id db n
                  | None => None
                  end)
  | JArr _ | JObj _ => Raise TypeError
  end.

(** [Campaign.query.get(key)]: a list is the identity itself and must have
    one element, a dict must be [{'id': v}], any other value is the one
    key value; a wrong number of values or another dict key raises
    [InvalidRequestError]. *)
Definition campaign_get (db : DB) (key : json) : result (option Campaign) :=
  match key with
  | JArr [v] => pk_lookup db v
  | JArr _ => Raise DBError
  | JObj kv =>
      if Nat.eqb (length (nodup string_dec (map fst kv))) 1 then
        match dict_get kv "id" with
        | Some v => pk_lookup db v
        | None => Raise DBError
        end
      else Raise DBError
  | v => pk_lookup db v
  end.

(** What the INTEGER column [client_id] keeps for a request value, read
    as an integer: [None] for NULL and for a value equal to no integer. *)
Definition client_id_value (v : json) : result (option Z) :=
  match v with
  | JNull => Ok None
  | JBool b => Ok (Some (if b then 1 else 0))
  | JInt n => n' <- sqlite_int n ;; Ok (Some n')
  | JStr s => Ok (numeric_text s)
  | JArr _ | JObj _ => Raise DBError
  end.

End SqliteKeys.

(** [str(n)] for [n >= 0], with enough fuel for its digits. *)
Fixpoint nat_digits (fuel : nat) (n : Z) (acc : string) : string :=
  match fuel with
  | O => acc
  | S f =>
      let acc' := String (digit_char (n mod 10)) acc in
      if n <? 10 then acc' else nat_digits f (n / 10) acc'
  end.

Definition z_to_dec (n : Z) : string :=
  if n <? 0 then "-" ++ nat_digits (S (Z.to_nat (Z.log2 (- n)))) (- n) ""
  else nat_digits (S (Z.to_nat (Z.log2 n))) n "".

(** The text a TEXT column keeps for a bound value ([None]: NULL):
    [sqlite3] binds a bool as 0 or 1, and TEXT affinity keeps a number as
    its decimal text. *)
Definition text_value (v : json) : result (option string) :=
  match v with
  | JNull => Ok None
  | JStr s => Ok (Some s)
  | JBool b => Ok (Some (if b then "1" else "0"))
  | JInt n => n' <- sqlite_int n ;; Ok (Some (z_to_dec n'))
  | JArr _ | JObj _ => Raise DBError
  end.

Definition of_text (o : option string) : json :=
  match o with Some s => JStr s | None => JNull end.

(** The Boolean column [is_active] (default true) for the value given to
    [CampaignSchedule(is_active=...)]: SQLAlchemy's strict bind accepts
    [None], [True] and [False] (so also [0] and [1]) and raises for any
    other value when the row is flushed; a [None] is left out of the
    INSERT, so the default applies. *)
Definition is_active_column (v : json) : result bool :=
  match v with
  | JNull => Ok true
  | JBool b => Ok b
  | JInt n => if n =? 0 then Ok false else if n =? 1 then Ok true else Raise DBError
  | _ => Raise DBError
  end.

Definition is_active_ok (v : json) : bool :=
  match is_active_column v with Ok _ => true | Raise _ => false end.

(** The [schedule.campaign] relationship. *)
Definition campaign_of (db : DB) (s : Schedule) : option Campaign :=
  campaign_by_id db (s_campaign_id s).

(** [db.session.add(schedule)] followed by the flush: the row gets the
    next id and the request's timestamp; binding [is_active] may raise.
    The row as the table gives it back (as [to_dict] after the commit
    reads it). *)
Definition materialize (id : Z) (created_at : string) (n : NewSchedule)
  : result Schedule :=
  is_active <- is_active_column (n_is_active n) ;;
  Ok {| s_id := id;
        s_campaign_id := n_campaign_id n;
        s_day_of_week := n_day_of_week n;
        s_start_time := n_start_time n;
        s_end_time := n_end_time n;
        s_is_active := JBool is_active;
        s_created_at := created_at |}.

Definition insert_schedule (db : DB) (n : NewSchedule) : result DB :=
  s <- materialize (next_schedule_id db) (now db) n ;;
  Ok {| campaigns := campaigns db;
        schedules := (schedules db ++ [s])%list;
        next_campaign_id := next_campaign_id db;
        next_schedule_id := next_schedule_id db + 1;
        now := now db |}.

(** The flush of several new rows; one that raises fails the commit. *)
Fixpoint commit_schedules (db : DB) (ns : list NewSchedule) : result DB :=
  match ns with
  | [] => Ok db
  | n :: rest => db1 <- insert_schedule db n ;; commit_schedules db1 rest
  end.

Definition insert_campaign (db : DB) (c : Campaign) : DB :=
  {| campaigns := (campaigns db ++ [c])%list;
     schedules := schedules db;
     next_campaign_id := next_campaign_id db + 1;
     next_schedule_id := next_schedule_id db;
     now := now db |}.

(** ** [CampaignSchedule.to_dict] *)

Definition days : list string :=
  ["Monday"; "Tuesday"; "Wednesday"; "Thursday"; "Friday"; "Saturday";
   "Sunday"].

(** Python list indexing [l[i]], negative indices counting from the end. *)
Definition py_index {A} (l : list A) (i : Z) : result A :=
  let n := Z.of_nat (length l) in
  let j := if i <? 0 then i + n else i in
  if (0 <=? j) && (j <? n) then
    match nth_error l (Z.to_nat j) with
    | Some a => Ok a
    | None => Raise IndexError
    end
  else Raise IndexError.

(** [strftime('%H:%M')]. *)
Definition two_digit (n : Z) : string :=
  String (digit_char (n / 10)) (String (digit_char (n mod 10)) EmptyString).

Definition strftime_HM (t : Z * Z) : string :=
  let '(h, m) := t in two_digit h ++ ":" ++ two_digit m.

Record ScheduleDict : Type := mkScheduleDict {
  d_id : Z;
  d_campaign_id : Z;
  d_day_of_week : Z;
  d_day_name : string;
  d_start_time : string;
  d_end_time : string;
  d_is_active : json;
  d_created_at : string
}.

(** [to_dict]; the [time] and [datetime] columns are non-null and time
    objects are always true, so their conditionals take the first branch. *)
Definition schedule_to_dict (s : Schedule) : result ScheduleDict :=
  day_name <- (if (0 <=? s_day_of_week s) && (s_day_of_week s <=? 6)
               then py_index days (s_day_of_week s)
               else Ok "Unknown") ;;
  Ok {| d_id := s_id s;
        d_campaign_id := s_campaign_id s;
        d_day_of_week := s_day_of_week s;
        d_day_name := day_name;
        d_start_time := strftime_HM (s_start_time s);
        d_end_time := strftime_HM (s_end_time s);
        d_is_active := s_is_active s;
        d_created_at := s_created_at s |}.

(** ** Responses *)

(** The campaign fields [get_schedules] copies into each entry. *)
Record CampaignInfo : Type := mkCampaignInfo {
  ci_name : json;
  ci_description : json;
  ci_status : json;
  ci_start_date : option string;
  ci_end_date : option string
}.

Definition campaign_info (c : Campaign) : CampaignInfo :=
  {| ci_name := c_name c;
     ci_description := c_description c;
     ci_status := c_status c;
     ci_start_date := c_start_date c;
     ci_end_date := c_end_date c |}.

Record ScheduleEntry : Type := mkScheduleEntry {
  e_schedule : ScheduleDict;
  e_campaign : option CampaignInfo
}.

Inductive Body : Type :=
| BError (msg : string)
| BSchedule (d : ScheduleDict)
| BScheduleList (entries : list ScheduleEntry) (isAdmin : bool)
| BCampaign (c : Campaign).

Record Response : Type := mkResponse {
  status : Z;
  body : Body
}.

Definition error (code : Z) (msg : string) : Response :=
  {| status := code; body := BError msg |}.

(** [[f(x) for x in xs]] where [f] may raise. *)
Fixpoint map_result {A B} (f : A -> result B) (xs : list A) : result (list B) :=
  match xs with
  | [] => Ok []
  | x :: rest => y <- f x ;; ys <- map_result f rest ;; Ok (y :: ys)
  end.

(** ** [GET /api/schedule] *)

(** The loop body: [schedule.to_dict()] and, when the relationship is set,
    the campaign's fields. *)
Definition schedule_entry (db : DB) (s : Schedule) : result ScheduleEntry :=
  d <- schedule_to_dict s ;;
  Ok {| e_schedule := d; e_campaign := option_map campaign_info (campaign_of db s) |}.

(** [query.filter(CampaignSchedule.day_of_week == target_date.weekday())] *)
Definition on_weekday (wd : Z) (s : Schedule) : bool := s_day_of_week s =? wd.

(** [query.join(Campaign).filter(Campaign.client_id == user.id)]: the inner
    join drops rows without a campaign, SQL equality is false on NULL. *)
Definition owned_by (db : DB) (user : User) (s : Schedule) : bool :=
  match campaign_of db s with
  | Some c => match c_client_id c with
              | Some cid => cid =? u_id user
              | None => false
              end
  | None => false
  end.

(** The [if date_str:] block of [get_schedules()]: an empty or absent
    argument leaves the query as it is. *)
Definition filter_by_date (date_arg : option string) (query : list Schedule)
  : result (list Schedule) :=
  match date_arg with
  | Some date_str =>
      if truthy (JStr date_str) then
        target_date <- strptime_YMD date_str ;;
        Ok (filter (on_weekday (weekday target_date)) query)
      else Ok query
  | None => Ok query
  end.

(** The [if user.role == 'client':] block. *)
Definition filter_by_role (db : DB) (user : User) (query : list Schedule)
  : list Schedule :=
  if String.eqb (u_role user) "client" then filter (owned_by db user) query
  else query.

(** [get_schedules()]; [date_arg] is [request.args.get('date')]. *)
Definition get_schedules (db : DB) (user : User) (date_arg : option string)
  : Response :=
  match filter_by_date date_arg (schedules db) with
  | Raise ValueError => error 400 "Invalid date format. Use YYYY-MM-DD."
  | Raise _ => error 500 "Failed to fetch schedules"
  | Ok query =>
      match map_result (schedule_entry db) (filter_by_role db user query) with
      | Ok result => {| status := 200; body := BScheduleList result (is_admin user) |}
      | Raise _ => error 500 "Failed to fetch schedules"
      end
  end.

(** ** [POST /api/schedule] *)

(** [not data or 'campaign_id' not in data or ...], left to right. *)
Fixpoint any_missing (data : json) (ks : list string) : result bool :=
  match ks with
  | [] => Ok false
  | k :: rest =>
      b <- py_contains data k ;;
      if b then any_missing data rest else Ok true
  end.

Definition required_missing (data : json) (ks : list string) : result bool :=
  if negb (truthy data) then Ok true else any_missing data ks.

Definition schedule_fields : list string :=
  ["campaign_id"; "day_of_week"; "start_time"; "end_time"].

Definition msg_required : string :=
  "Campaign ID, day of week, start time and end time are required".
Definition msg_not_found : string := "Campaign not found".
Definition msg_time : string := "Invalid time format. Use HH:MM.".
Definition msg_day : string :=
  "day_of_week must be an integer between 0 (Monday) and 6 (Sunday)".
Definition msg_failed : string := "Failed to create schedule".

Section PostSchedule.

Variable numeric_text : string -> option Z.

(** The body of the outer [try] of [create_schedule()]. *)
Definition create_schedule_try (db : DB) (data : json) : result (Response * DB) :=
  missing <- required_missing data schedule_fields ;;
  if missing then Ok (error 400 msg_required, db) else
  key <- getitem data "campaign_id" ;;
  found <- campaign_get numeric_text db key ;;
  match found with
  | None => Ok (error 404 msg_not_found, db)
  | Some campaign =>
      let times :=
        st <- (v <- getitem data "start_time" ;; py_strptime_time v) ;;
        et <- (v <- getitem data "end_time" ;; py_strptime_time v) ;;
        Ok (st, et) in
      match times with
      | Raise ValueError => Ok (error 400 msg_time, db)
      | Raise e => Raise e
      | Ok (st, et) =>
          dv <- getitem data "day_of_week" ;;
          dow <- py_int dv ;;
          if negb ((0 <=? dow) && (dow <=? 6)) then Ok (error 400 msg_day, db) else
          is_active <- dict_get_default data "is_active" (JBool true) ;;
          (* [db.session.commit()].  [campaign_id=data['campaign_id']]: a
             scalar key that found [campaign] is stored as its id (the
             INTEGER column converts a numeric text); [sqlite3] cannot bind
             an array or an object. *)
          cid <- (if sql_bindable key then Ok (c_id campaign) else Raise DBError) ;;
          let n := {| n_campaign_id := cid;
                      n_day_of_week := dow;
                      n_start_time := st;
                      n_end_time := et;
                      n_is_active := is_active |} in
          db' <- insert_schedule db n ;;
          s <- materialize (next_schedule_id db) (now db) n ;;
          d <- schedule_to_dict s ;;
          Ok ({| status := 201; body := BSchedule d |}, db')
      end
  end.

(** [create_schedule()]: any exception escaping the [try] is a 500 and a
    rollback. *)
Definition create_schedule (db : DB) (data : json) : Response * DB :=
  match create_schedule_try db data with
  | Ok r => r
  | Raise _ => (error 500 msg_failed, db)
  end.

End PostSchedule.

(** ** The schedule loop of [POST /api/campaigns] *)

(** One pass of the [try] body for [schedule_item]; [Ok None] is the
    [continue] on an out-of-range day. *)
Definition schedule_item_step (campaign_id : Z) (schedule_item : json)
  : result (option NewSchedule) :=
  st <- (v <- getitem schedule_item "start_time" ;; py_strptime_time v) ;;
  et <- (v <- getitem schedule_item "end_time" ;; py_strptime_time v) ;;
  dv <- getitem schedule_item "day_of_week" ;;
  dow <- py_int dv ;;
  if negb ((0 <=? dow) && (dow <=? 6)) then Ok None else
  is_active <- dict_get_default schedule_item "is_active" (JBool true) ;;
  Ok (Some {| n_campaign_id := campaign_id;
              n_day_of_week := dow;
              n_start_time := st;
              n_end_time := et;
              n_is_active := is_active |}).

(** [for schedule_item in schedule_data]: the [KeyError], [ValueError] and
    [Exception] handlers all log and go on with the next item. *)
Fixpoint schedule_batch (campaign_id : Z) (items : list json) : list NewSchedule :=
  match items with
  | [] => []
  | item :: rest =>
      match schedule_item_step campaign_id item with
      | Ok (Some n) => n :: schedule_batch campaign_id rest
      | Ok None => schedule_batch campaign_id rest
      | Raise _ => schedule_batch campaign_id rest
      end
  end.

(** [s.replace('Z', '+00:00')] *)
Fixpoint replace_Z (s : string) : string :=
  match s with
  | EmptyString => EmptyString
  | String c rest =>
      if Ascii.eqb c "Z"%char then "+00:00" ++ replace_Z rest
      else String c (replace_Z rest)
  end.

Section CreateCampaign.

(** [datetime.fromisoformat], giving the [isoformat()] of the value as
    the DateTime column gives it back. *)
Variable fromisoformat : string -> result string.

Variable numeric_text : string -> option Z.

(** [if data.get(k): campaign.k = datetime.fromisoformat(data[k].replace(...))] *)
Definition iso_date_field (data : json) (k : string) : result (option string) :=
    v <- dict_get_default data k JNull ;;
    if truthy v then
      match v with
      | JStr s => iso <- fromisoformat (replace_Z s) ;; Ok (Some iso)
      | _ => Raise AttributeError
      end
    else Ok None.

(** [create_campaign()] up to [db.session.flush()] (JSON requests, no
      files): [Ok None] is the 400 for a missing name, [Ok (Some c)] the
      flushed campaign. *)
Definition campaign_prefix (db : DB) (user : User) (data : json)
    : result (option Campaign) :=
    has_name <- (if negb (truthy data) then Ok false else py_contains data "name") ;;
    if negb has_name then Ok None else
    client_id <- dict_get_default data "client_id" JNull ;;
    let client_id :=
      if String.eqb (u_role user) "client" && negb (truthy client_id)
      then JInt (u_id user) else client_id in
    name <- getitem data "name" ;;
    description <- dict_get_default data "description" JNull ;;
    st <- dict_get_default data "status" (JStr "draft") ;;
    start_date <- iso_date_field data "start_date" ;;
    end_date <- iso_date_field data "end_date" ;;
    (* [db.session.flush()]: a [None] attribute is left out of the INSERT,
       so [status] takes its default ['draft'] and the NOT NULL [name],
       which has none, is NULL. *)
    name' <- text_value name ;;
    name' <- (match name' with Some s => Ok s | None => Raise DBError end) ;;
    description' <- text_value description ;;
    st' <- text_value st ;;
    client_id' <- client_id_value numeric_text client_id ;;
    Ok (Some {| c_id := next_campaign_id db;
                c_name := JStr name';
                c_description := of_text description';
                c_status := JStr (match st' with Some s => s | None => "draft" end);
                c_start_date := start_date;
                c_end_date := end_date;
                c_created_by := u_id user;
                c_client_id := client_id';
                c_created_at := now db;
                c_updated_at := now db |}).

(** The schedules [create_campaign()] adds for the flushed campaign. *)
Definition campaign_schedules (campaign : Campaign) (data : json)
    : result (list NewSchedule) :=
    schedule_data <- dict_get_default data "schedules" JNull ;;
    Ok (match schedule_data with
        | JArr items => if truthy schedule_data
                        then schedule_batch (c_id campaign) items else []
        | _ => []
        end).

(** [create_campaign()] on a JSON body; an escaping exception is a 500
      and a rollback. *)
Definition create_campaign (db : DB) (user : User) (data : json) : Response * DB :=
    let attempt :=
      p <- campaign_prefix db user data ;;
      match p with
      | None => Ok (error 400 "Campaign name is required", db)
      | Some campaign =>
          let db1 := insert_campaign db campaign in
          ns <- campaign_schedules campaign data ;;
          db2 <- commit_schedules db1 ns ;;
          Ok ({| status := 201; body := BCampaign campaign |}, db2)
      end in
    match attempt with
    | Ok r => r
    | Raise _ => (error 500 "Failed to create campaign", db)
    end.

End CreateCampaign.

(** ** Readings of the specification *)

(** The spellings ['%H'] and ['%M'] accept for a number below 60: one
    digit when it is below 10, and always two digits. *)
Definition num_forms (n : Z) : list string :=
  if n <=? 9 then [String (digit_char n) EmptyString; two_digit n]
  else [two_digit n].

(** [s] spells the time [h:m] as ['%H:%M'] reads it. *)
Definition hm_spelling (s : string) (h m : Z) : Prop :=
  0 <= h <= 23 /\ 0 <= m <= 59 /\
  exists sh sm, In sh (num_forms h) /\ In sm (num_forms m) /\
                s = sh ++ ":" ++ sm.

(** Strict [HH:MM] of the specification: two digits each. *)
Definition strict_HHMM (s : string) : Prop :=
  exists h m, 0 <= h <= 23 /\ 0 <= m <= 59 /\
              s = two_digit h ++ ":" ++ two_digit m.

(** Strict [YYYY-MM-DD] of the specification. *)
Definition four_digit (n : Z) : string := two_digit (n / 100) ++ two_digit (n mod 100).

Definition strict_YYYYMMDD (s : string) : Prop :=
  exists y m d, 1 <= y <= 9999 /\ 1 <= m <= 12 /\ 1 <= d <= days_in_month y m /\
                s = four_digit y ++ "-" ++ two_digit m ++ "-" ++ two_digit d.






(** The role scoping of the query. *)
Definition visible (db : DB) (user : User) (s : Schedule) : bool :=
  if String.eqb (u_role user) "client" then owned_by db user s else true.

(** Integers [a], ..., [a + n - 1]. *)
Definition zrange (a : Z) (n : nat) : list Z :=
  map (fun k => a + Z.of_nat k) (seq 0 n).

(** The row [create_schedule()] builds once every field has parsed. *)
Definition posted_schedule (kv : list (string * json)) (campaign : Campaign)
  (st et : Z * Z) (dow : Z) : NewSchedule :=
  {| n_campaign_id := c_id campaign;
     n_day_of_week := dow;
     n_start_time := st;
     n_end_time := et;
     n_is_active := match dict_get kv "is_active" with
                    | Some v => v
                    | None => JBool true
                    end |}.

(** The day name [to_dict] gives. *)
Definition table_day_name (d : Z) : string :=
  if (0 <=? d) && (d <=? 6) then nth (Z.to_nat d) days "" else "Unknown".

(** The entry [get_schedules()] produces for a row, [to_dict] evaluated. *)
Definition schedule_entry_of (db : DB) (s : Schedule) : ScheduleEntry :=
  {| e_schedule := {| d_id := s_id s;
                      d_campaign_id := s_campaign_id s;
                      d_day_of_week := s_day_of_week s;
                      d_day_name := table_day_name (s_day_of_week s);
                      d_start_time := strftime_HM (s_start_time s);
                      d_end_time := strftime_HM (s_end_time s);
                      d_is_active := s_is_active s;
                      d_created_at := s_created_at s |};
     e_campaign := option_map campaign_info (campaign_of db s) |}.

(** The rows [commit_schedules] appends, with consecutive ids. *)
Fixpoint materialize_from (id : Z) (created_at : string) (ns : list NewSchedule)
  : result (list Schedule) :=
  match ns with
  | [] => Ok []
  | n :: rest =>
      s <- materialize id created_at n ;;
      rows <- materialize_from (id + 1) created_at rest ;;
      Ok (s :: rows)
  end.

(** ** Sample data *)

Definition sample_campaign : Campaign :=
  {| c_id := 1; c_name := JStr "Spring"; c_description := JNull;
     c_status := JStr "active"; c_start_date := None; c_end_date := None;
     c_created_by := 1; c_client_id := Some 7;
     c_created_at := "2023-12-01T00:00:00"; c_updated_at := "2023-12-01T00:00:00" |}.

(** A stand-in for SQLite's numeric reading of a text: plain decimals. *)
Definition sample_numeric_text (s : string) : option Z := dec_digits s.

Definition sample_db : DB :=
  {| campaigns := [sample_campaign]; schedules := [];
     next_campaign_id := 2; next_schedule_id := 1;
     now := "2024-01-01T00:00:00" |}.

Definition sample_fields (day : json) (st et : string) : list (string * json) :=
  [("campaign_id", JInt 1); ("day_of_week", day);
   ("start_time", JStr st); ("end_time", JStr et)].

Definition sample_item (day : json) (st et : string) : json :=
  JObj [("day_of_week", day); ("start_time", JStr st); ("end_time", JStr et)].

Definition sample_admin : User := {| u_id := 1; u_role := "admin" |}.
Definition sample_client : User := {| u_id := 7; u_role := "client" |}.

(** ** Other handlers of [src/app.py] *)

(** *** Upload helpers *)

(** [str.lower] on one character.  Strings here hold code points below
    256; the upper-case ones are [A]..[Z], [\xc0]..[\xd6] and
    [\xd8]..[\xde], each 32 below its lower-case form. *)
Definition lower_char (c : ascii) : ascii :=
  let n := nat_of_ascii c in
  if (Nat.leb 65 n && Nat.leb n 90) || (Nat.leb 192 n && Nat.leb n 214) ||
     (Nat.leb 216 n && Nat.leb n 222)
  then ascii_of_nat (n + 32) else c.

Fixpoint py_lower (s : string) : string :=
  match s with
  | EmptyString => EmptyString
  | String c rest => String (lower_char c) (py_lower rest)
  end.

(** [s.rsplit('.', 1)]: split at the last dot, [[s]] when there is none. *)
Fixpoint rsplit_dot (s : string) : list string :=
  match s with
  | EmptyString => [""]
  | String c rest =>
      match rsplit_dot rest with
      | [a] => if Ascii.eqb c "." then [""; a] else [String c a]
      | a :: l => String c a :: l
      | [] => []
      end
  end.

Definition ALLOWED_EXTENSIONS : list string :=
  ["png"; "jpg"; "jpeg"; "gif"; "mp4"; "avi"; "mov"; "webm"].

(** [allowed_file(filename)] *)
Definition allowed_file (filename : string) : result bool :=
  if substring_of "." filename then
    ext <- py_index (rsplit_dot filename) 1 ;;
    Ok (existsb (String.eqb (py_lower ext)) ALLOWED_EXTENSIONS)
  else Ok false.

(** [get_file_type(filename)] *)
Definition get_file_type (filename : string) : result string :=
  ext <- (if substring_of "." filename
          then e <- py_index (rsplit_dot filename) 1 ;; Ok (py_lower e)
          else Ok "") ;;
  Ok (if existsb (String.eqb ext) ["png"; "jpg"; "jpeg"; "gif"] then "image"
      else if existsb (String.eqb ext) ["mp4"; "avi"; "mov"; "webm"] then "video"
      else "unknown").

(** *** Campaign and user management *)

(** A row of [users], with the columns the handlers below read or write. *)
Record Account : Type := mkAccount {
  acc_id : Z;
  acc_username : string;
  acc_email : string;
  acc_password_hash : string;
  acc_role : string;
  acc_is_active : bool
}.

(** The JSON bodies of the handlers below: [[c.to_dict() for c in cs]],
    [c.to_dict()], the deletion message for a campaign of that name, and
    [{'success': True, 'user': u.to_dict()}] with the [action] of a
    toggle, and [{'success': True, 'message': msg}]. *)
Inductive Reply : Type :=
| RError (msg : string)
| RCampaigns (cs : list Campaign)
| RCampaign (c : Campaign)
| RDeleted (name : json)
| RUser (u : Account) (action : option string)
| RMessage (msg : string).

Record Answer : Type := mkAnswer {
  ans_status : Z;
  ans_body : Reply
}.

Definition fail (code : Z) (msg : string) : Answer :=
  {| ans_status := code; ans_body := RError msg |}.

(** SQL [client_id = :id] on the nullable integer column. *)
Definition client_is (c : Campaign) (uid : Z) : bool :=
  match c_client_id c with Some cid => cid =? uid | None => false end.

(** The rows [get_campaigns()] queries: all for an admin, [filter_by(client_id=user.id)]
    for a client, [filter_by(status='active')] otherwise (SQLite, the
    default [DATABASE_URL], compares text exactly). *)
Definition campaigns_for (db : DB) (user : User) : list Campaign :=
  if String.eqb (u_role user) "admin" then campaigns db
  else if String.eqb (u_role user) "client" then
    filter (fun c => client_is c (u_id user)) (campaigns db)
  else filter (fun c => match c_status c with
                        | JStr s => String.eqb s "active"
                        | _ => false
                        end) (campaigns db).

(** [get_campaigns()]; [to_dict] does not raise. *)
Definition get_campaigns (db : DB) (user : User) : Answer :=
  {| ans_status := 200; ans_body := RCampaigns (campaigns_for db user) |}.

(** [not user.is_admin() and campaign.created_by != user.id and
    campaign.client_id != user.id] *)
Definition permission_denied (user : User) (campaign : Campaign) : bool :=
  negb (is_admin user) && negb (c_created_by campaign =? u_id user) &&
  negb (client_is campaign (u_id user)).

(** [if k in data: campaign.k = data[k]]: [Some v] when assigned. *)
Definition assigned (data : json) (k : string) : result (option json) :=
  present <- py_contains data k ;;
  if present then v <- getitem data k ;; Ok (Some v) else Ok None.

(** [db.session.commit()] of an assigned text column: the text it keeps;
    an assigned [None] is written as NULL, which a NOT NULL column
    refuses. *)
Definition text_update (nullable : bool) (o : option json) (old : json) : result json :=
  match o with
  | None => Ok old
  | Some v =>
      t <- text_value v ;;
      match t with
      | Some s => Ok (JStr s)
      | None => if nullable then Ok JNull else Raise DBError
      end
  end.

(** The table after [UPDATE campaigns ... WHERE id = c.id]. *)
Definition replace_campaign (db : DB) (c' : Campaign) : DB :=
  {| campaigns := map (fun c => if c_id c =? c_id c' then c' else c) (campaigns db);
     schedules := schedules db;
     next_campaign_id := next_campaign_id db;
     next_schedule_id := next_schedule_id db;
     now := now db |}.

(** [db.session.delete(campaign)]: the [schedules] relationship cascades. *)
Definition remove_campaign (db : DB) (id : Z) : DB :=
  {| campaigns := filter (fun c => negb (c_id c =? id)) (campaigns db);
     schedules := filter (fun s => negb (s_campaign_id s =? id)) (schedules db);
     next_campaign_id := next_campaign_id db;
     next_schedule_id := next_schedule_id db;
     now := now db |}.

(** [delete_campaign(campaign_id)]: [get_or_404] raises [NotFound] inside
    the [try], whose [except Exception] turns it into the 500. *)
Definition delete_campaign (db : DB) (user : User) (campaign_id : Z) : Answer * DB :=
  match campaign_by_id db campaign_id with
  | None => (fail 500 "Failed to delete campaign", db)
  | Some campaign =>
      if permission_denied user campaign then (fail 403 "Permission denied", db)
      else ({| ans_status := 200; ans_body := RDeleted (c_name campaign) |},
            remove_campaign db campaign_id)
  end.

Section UpdateCampaign.

(** As for [create_campaign]: [datetime.fromisoformat] and SQLite's
    numeric reading of a text. *)
Variable fromisoformat : string -> result string.
Variable numeric_text : string -> option Z.

(** [if k in data: campaign.k = datetime.fromisoformat(data[k].replace('Z', '+00:00')) if data[k] else None] *)
Definition iso_date_update (data : json) (k : string) (old : option string)
  : result (option string) :=
  present <- py_contains data k ;;
  if present then
    v <- getitem data k ;;
    if truthy v then
      match v with
      | JStr s => iso <- fromisoformat (replace_Z s) ;; Ok (Some iso)
      | _ => Raise AttributeError
      end
    else Ok None
  else Ok old.

(** The assignments of [update_campaign()], [campaign.updated_at =
    datetime.utcnow()] (the request's [now]) and the commit; the class of
    the exception does not matter, every one is the 500.  The result is
    the row as [to_dict] reads it back after the commit. *)
Definition update_campaign_try (now_text : string) (campaign : Campaign) (data : json)
  : result Campaign :=
  name <- assigned data "name" ;;
  description <- assigned data "description" ;;
  st <- assigned data "status" ;;
  client_id <- assigned data "client_id" ;;
  start_date <- iso_date_update data "start_date" (c_start_date campaign) ;;
  end_date <- iso_date_update data "end_date" (c_end_date campaign) ;;
  name' <- text_update false name (c_name campaign) ;;
  description' <- text_update true description (c_description campaign) ;;
  st' <- text_update false st (c_status campaign) ;;
  client_id' <- (match client_id with
                 | Some v => client_id_value numeric_text v
                 | None => Ok (c_client_id campaign)
                 end) ;;
  Ok {| c_id := c_id campaign;
        c_name := name';
        c_description := description';
        c_status := st';
        c_start_date := start_date;
        c_end_date := end_date;
        c_created_by := c_created_by campaign;
        c_client_id := client_id';
        c_created_at := c_created_at campaign;
        c_updated_at := now_text |}.

(** [update_campaign(campaign_id)] *)
Definition update_campaign (db : DB) (user : User) (campaign_id : Z) (data : json)
  : Answer * DB :=
  match campaign_by_id db campaign_id with
  | None => (fail 500 "Failed to update campaign", db)
  | Some campaign =>
      if permission_denied user campaign then (fail 403 "Permission denied", db)
      else match update_campaign_try (now db) campaign data with
           | Ok c' => ({| ans_status := 200; ans_body := RCampaign c' |},
                       replace_campaign db c')
           | Raise _ => (fail 500 "Failed to update campaign", db)
           end
  end.

End UpdateCampaign.

(** [User.query.get(id)] *)
Definition account_by_id (users : list Account) (id : Z) : option Account :=
  find (fun a => acc_id a =? id) users.

(** The table after [UPDATE users ... WHERE id = a.id]. *)
Definition replace_account (users : list Account) (a' : Account) : list Account :=
  map (fun a => if acc_id a =? acc_id a' then a' else a) users.

Definition with_role (a : Account) (r : string) : Account :=
  {| acc_id := acc_id a; acc_username := acc_username a; acc_email := acc_email a;
     acc_password_hash := acc_password_hash a; acc_role := r;
     acc_is_active := acc_is_active a |}.

Definition with_active (a : Account) (b : bool) : Account :=
  {| acc_id := acc_id a; acc_username := acc_username a; acc_email := acc_email a;
     acc_password_hash := acc_password_hash a; acc_role := acc_role a;
     acc_is_active := b |}.

Definition roles : list string := ["admin"; "client"; "viewer"].

(** [update_user_role(user_id)]; [get_or_404] raises inside the [try]. *)
Definition update_user_role (users : list Account) (user_id : Z) (data : json)
  : Answer * list Account :=
  match account_by_id users user_id with
  | None => (fail 500 "Failed to update user role", users)
  | Some user =>
      let valid :=
        present <- py_contains data "role" ;;
        if present then
          r <- getitem data "role" ;;
          Ok (match r with
              | JStr s => if existsb (String.eqb s) roles then Some s else None
              | _ => None
              end)
        else Ok None in
      match valid with
      | Ok (Some s) =>
          let user' := with_role user s in
          ({| ans_status := 200; ans_body := RUser user' None |},
           replace_account users user')
      | Ok None => (fail 400 "Valid role is required", users)
      | Raise _ => (fail 500 "Failed to update user role", users)
      end
  end.

(** [toggle_user_status(user_id)]; [session_uid] is [session['user_id']]. *)
Definition toggle_user_status (users : list Account) (session_uid user_id : Z)
  : Answer * list Account :=
  match account_by_id users user_id with
  | None => (fail 500 "Failed to update user status", users)
  | Some user =>
      if acc_id user =? session_uid then
        (fail 400 "Cannot deactivate your own account", users)
      else
        let user' := with_active user (negb (acc_is_active user)) in
        let action := if acc_is_active user' then "activated" else "deactivated" in
        ({| ans_status := 200; ans_body := RUser user' (Some action) |},
         replace_account users user')
  end.

(** What a decorated view returns: a redirect (with its flashed message,
    not modelled) or the handler's answer. *)
Inductive Outcome : Type :=
| Redirect (endpoint : string)
| Respond (a : Answer).

Definition view : Type := list Account -> Outcome * list Account.

(** [login_required]; [session_uid] is [session.get('user_id')]. *)
Definition login_required (session_uid : option Z) (f : view) : view :=
  fun users =>
    match session_uid with
    | None => (Redirect "login", users)
    | Some _ => f users
    end.

(** [admin_required] *)
Definition admin_required (session_uid : option Z) (f : view) : view :=
  fun users =>
    match session_uid with
    | None => (Redirect "login", users)
    | Some uid =>
        match account_by_id users uid with
        | Some user => if String.eqb (acc_role user) "admin" then f users
                       else (Redirect "dashboard", users)
        | None => (Redirect "dashboard", users)
        end
    end.

Definition respond (h : list Account -> Answer * list Account) : view :=
  fun users => let '(a, users') := h users in (Respond a, users').

(** The routes [PUT /api/users/<id>/role] and
    [POST /api/users/<id>/toggle-status] with their decorators. *)
Definition route_update_user_role (session_uid : option Z) (user_id : Z) (data : json) : view :=
  login_required session_uid
    (admin_required session_uid (respond (fun users => update_user_role users user_id data))).

Definition route_toggle_user_status (session_uid : option Z) (user_id : Z) : view :=
  login_required session_uid
    (admin_required session_uid
       (fun users => match session_uid with
                     | Some uid => respond (fun us => toggle_user_status us uid user_id) users
                     | None => (Redirect "login", users)
                     end)).

(** *** Authentication forms *)

(** What the form routes answer: a rendered template or a redirect. *)
Inductive Page : Type :=
| Render (template : string)
| GoTo (target : string).

(** [login()] on a POST, with [request.form.get('username')],
    [request.form.get('password')] and [request.args.get('next')]; the
    second component is the account the session is set to ([None]: the
    session is left as it was).  [checkpw p h] is [bcrypt.checkpw]. *)
Definition login_post (checkpw : string -> string -> bool) (users : list Account)
  (username password next : option string) : Page * option Account :=
  match username, password with
  | Some un, Some pw =>
      if String.eqb un "" || String.eqb pw "" then (Render "login.html", None)
      else
        match find (fun a => String.eqb (acc_username a) un) users with
        | Some user =>
            if checkpw pw (acc_password_hash user) && acc_is_active user then
              (match next with
               | Some n => if String.eqb n "" then GoTo "dashboard" else GoTo n
               | None => GoTo "dashboard"
               end, Some user)
            else (Render "login.html", None)
        | None => (Render "login.html", None)
        end
  | _, _ => (Render "login.html", None)
  end.

Definition allowed_demo_users : list string := ["admin"; "client1"; "viewer1"].

(** [demo_login(username)] *)
Definition demo_login (users : list Account) (username : string) : Page * option Account :=
  if negb (existsb (String.eqb username) allowed_demo_users) then (GoTo "login", None)
  else
    match find (fun a => String.eqb (acc_username a) username && acc_is_active a) users with
    | Some user => (GoTo "dashboard", Some user)
    | None => (GoTo "login", None)
    end.

(** [register()] on a POST; [hashpw] is [set_password]'s bcrypt call and
    [new_id] the id the insert gets.  The new row is a viewer and active
    (the column defaults). *)
Definition register_post (hashpw : string -> result string) (users : list Account)
  (new_id : Z) (username email password confirm_password : option string)
  : Page * list Account :=
  match username, email, password, confirm_password with
  | Some un, Some em, Some pw, Some cf =>
      if String.eqb un "" || String.eqb em "" || String.eqb pw "" || String.eqb cf ""
      then (Render "register.html", users)
      else if negb (String.eqb pw cf) then (Render "register.html", users)
      else if Nat.ltb (String.length pw) 6 then (Render "register.html", users)
      else if existsb (fun a => String.eqb (acc_username a) un) users
      then (Render "register.html", users)
      else if existsb (fun a => String.eqb (acc_email a) em) users
      then (Render "register.html", users)
      else
        match hashpw pw with
        | Ok h =>
            (GoTo "login",
             (users ++ [{| acc_id := new_id; acc_username := un; acc_email := em;
                           acc_password_hash := h; acc_role := "viewer";
                           acc_is_active := true |}])%list)
        | Raise _ => (Render "register.html", users)
        end
  | _, _, _, _ => (Render "register.html", users)
  end.

(** *** Account settings *)

(** [len(v)] of a JSON value; a dict counts its distinct keys. *)
Definition py_len (v : json) : result Z :=
  match v with
  | JStr s => Ok (Z.of_nat (String.length s))
  | JArr l => Ok (Z.of_nat (length l))
  | JObj kv => Ok (Z.of_nat (length (nodup string_dec (map fst kv))))
  | _ => Raise TypeError
  end.

Section AccountSettings.

(** [bcrypt.checkpw] and [bcrypt.hashpw] (with a fresh salt) on the
    UTF-8 encodings. *)
Variable checkpw : string -> string -> bool.
Variable hashpw : string -> result string.

(** [user.check_password(p)]: [p.encode] raises unless [p] is a string. *)
Definition check_password (user : Account) (p : json) : result bool :=
  match p with
  | JStr s => Ok (checkpw s (acc_password_hash user))
  | _ => Raise AttributeError
  end.

(** [user.set_password(p)] *)
Definition set_password (user : Account) (p : json) : result Account :=
  match p with
  | JStr s =>
      h <- hashpw s ;;
      Ok {| acc_id := acc_id user; acc_username := acc_username user;
            acc_email := acc_email user; acc_password_hash := h;
            acc_role := acc_role user; acc_is_active := acc_is_active user |}
  | _ => Raise AttributeError
  end.

Definition msg_new_password : string := "New password must be at least 8 characters".

(** The [try] body of [change_password()]; [uid] is [session['user_id']]
    ([User.query.get] gives [None] for an unknown id, and
    [None.check_password] raises). *)
Definition change_password_try (users : list Account) (uid : Z) (data : json)
  : result (Answer * list Account) :=
  match account_by_id users uid with
  | None => Raise AttributeError
  | Some user =>
      cur <- dict_get_default data "current_password" (JStr "") ;;
      ok <- check_password user cur ;;
      if negb ok then Ok (fail 400 "Current password is incorrect", users)
      else
        new_password <- dict_get_default data "new_password" JNull ;;
        if negb (truthy new_password) then Ok (fail 400 msg_new_password, users)
        else
          n <- py_len new_password ;;
          if n <? 8 then Ok (fail 400 msg_new_password, users)
          else
            user' <- set_password user new_password ;;
            Ok ({| ans_status := 200; ans_body := RMessage "Password changed successfully" |},
                replace_account users user')
  end.

(** [change_password()]: an exception rolls back and answers 500. *)
Definition change_password (users : list Account) (uid : Z) (data : json)
  : Answer * list Account :=
  match change_password_try users uid data with
  | Ok r => r
  | Raise _ => (fail 500 "Failed to change password", users)
  end.

(** The [try] body of [delete_account()]; the boolean says whether
    [session.clear()] ran. *)
Definition delete_account_try (users : list Account) (uid : Z) (data : json)
  : result (Answer * list Account * bool) :=
  match account_by_id users uid with
  | None => Raise AttributeError
  | Some user =>
      pw <- dict_get_default data "password" (JStr "") ;;
      ok <- check_password user pw ;;
      if negb ok then Ok (fail 400 "Password verification failed", users, false)
      else
        Ok ({| ans_status := 200; ans_body := RMessage "Account deletion initiated" |},
            replace_account users (with_active user false), true)
  end.

(** [delete_account()] *)
Definition delete_account (users : list Account) (uid : Z) (data : json)
  : Answer * list Account * bool :=
  match delete_account_try users uid data with
  | Ok r => r
  | Raise _ => (fail 500 "Failed to delete account", users, false)
  end.

End AccountSettings.

(** *** Sample data for the handlers above *)

Definition sample_eve : Account :=
  {| acc_id := 9; acc_username := "eve"; acc_email := "eve@example.com";
     acc_password_hash := "h:secret9"; acc_role := "viewer"; acc_is_active := true |}.

Definition sample_accounts : list Account :=
  [{| acc_id := 1; acc_username := "admin"; acc_email := "admin@example.com";
      acc_password_hash := "h:secret1"; acc_role := "admin"; acc_is_active := true |};
   {| acc_id := 7; acc_username := "acme"; acc_email := "acme@example.com";
      acc_password_hash := "h:secret7"; acc_role := "client"; acc_is_active := false |};
   sample_eve].

(** A stand-in for bcrypt: the hash of [p] is [h:p]. *)
Definition sample_hashpw (p : string) : result string := Ok ("h:" ++ p).

Definition sample_checkpw (p h : string) : bool := String.eqb ("h:" ++ p) h.

(** ** Lemmas about the Python primitives *)

Lemma digit_val_inv : forall c k,
  digit_val c = Some k -> c = digit_char k /\ 0 <= k <= 9.
Proof.
  intros c k H.
  destruct c as [[|] [|] [|] [|] [|] [|] [|] [|]];
    vm_compute in H; try discriminate H;
    injection H as <-; split; (reflexivity || lia).
Qed.

Lemma digit_val_char : forall k, 0 <= k <= 9 -> digit_val (digit_char k) = Some k.
Proof.
  intros k Hk.
  assert (k = 0 \/ k = 1 \/ k = 2 \/ k = 3 \/ k = 4 \/ k = 5 \/ k = 6 \/
          k = 7 \/ k = 8 \/ k = 9) as Hc by lia.
  repeat destruct Hc as [-> | Hc]; try reflexivity; subst; reflexivity.
Qed.

Lemma two_digit_split : forall a b, 0 <= a <= 9 -> 0 <= b <= 9 ->
  two_digit (10 * a + b) = String (digit_char a) (String (digit_char b) EmptyString).
Proof.
  intros a b Ha Hb. unfold two_digit.
  replace ((10 * a + b) / 10) with a by (apply Z.div_unique with b; lia).
  replace ((10 * a + b) mod 10) with b by (apply Z.mod_unique with a; lia).
  reflexivity.
Qed.

Lemma one_digit_sound : forall ok s v r,
  In (v, r) (one_digit ok s) ->
  ok v = true /\ 0 <= v <= 9 /\ s = String (digit_char v) r.
Proof.
  intros ok s v r H. destruct s as [|c s']; [destruct H|].
  simpl in H. destruct (digit_val c) as [a|] eqn:Ea; [|destruct H].
  destruct (ok a) eqn:Eo; [|destruct H].
  destruct H as [H|[]]. injection H as <- <-.
  apply digit_val_inv in Ea as [-> Ha]. auto.
Qed.

Lemma two_digits_sound : forall ok s v r,
  In (v, r) (two_digits ok s) ->
  exists a b, ok a b = true /\ 0 <= a <= 9 /\ 0 <= b <= 9 /\ v = 10 * a + b /\
              s = String (digit_char a) (String (digit_char b) r).
Proof.
  intros ok s v r H.
  destruct s as [|c1 [|c2 s']]; try destruct H.
  simpl in H.
  destruct (digit_val c1) as [a|] eqn:Ea; [|destruct H].
  destruct (digit_val c2) as [b|] eqn:Eb; [|destruct H].
  destruct (ok a b) eqn:Eo; [|destruct H].
  destruct H as [H|[]]. injection H as <- <-.
  apply digit_val_inv in Ea as [-> Ha]. apply digit_val_inv in Eb as [-> Hb].
  exists a, b. auto.
Qed.

Lemma append_empty_r : forall s, s ++ "" = s.
Proof. induction s as [|c s IH]; simpl; [reflexivity | now rewrite IH]. Qed.

Lemma append_assoc_str : forall a b c, (a ++ b) ++ c = a ++ (b ++ c).
Proof. induction a as [|x a IH]; intros; simpl; [reflexivity | now rewrite IH]. Qed.

Lemma two_digit_in_forms : forall v, In (two_digit v) (num_forms v).
Proof. intro v. unfold num_forms. destruct (v <=? 9); simpl; auto. Qed.

Lemma one_digit_in_forms : forall v, v <= 9 ->
  In (String (digit_char v) EmptyString) (num_forms v).
Proof.
  intros v Hv. unfold num_forms.
  replace (v <=? 9) with true by (symmetry; apply Z.leb_le; lia). now left.
Qed.

Lemma two_digits_form : forall ok s v r,
  In (v, r) (two_digits ok s) ->
  (exists a b, ok a b = true /\ 0 <= a <= 9 /\ 0 <= b <= 9 /\ v = 10 * a + b) /\
  s = two_digit v ++ r.
Proof.
  intros ok s v r H.
  destruct (two_digits_sound ok s v r H) as (a & b & Hok & Ha & Hb & -> & ->).
  split; [exists a, b; auto|]. now rewrite two_digit_split.
Qed.

(** Group soundness: what a candidate of [%H] or [%M] consumed. *)
Lemma re_H_sound : forall s v r,
  In (v, r) (re_H s) ->
  0 <= v <= 23 /\ exists f, In f (num_forms v) /\ s = f ++ r.
Proof.
  intros s v r H. unfold re_H in H.
  apply in_app_or in H as [H|H]; [|apply in_app_or in H as [H|H]].
  - apply two_digits_form in H as [(a & b & Hok & Ha & Hb & ->) ->].
    apply andb_prop in Hok as [H1 H2]. apply Z.eqb_eq in H1. apply Z.leb_le in H2.
    split; [lia|]. eexists; split; [apply two_digit_in_forms|reflexivity].
  - apply two_digits_form in H as [(a & b & Hok & Ha & Hb & ->) ->].
    apply Z.leb_le in Hok.
    split; [lia|]. eexists; split; [apply two_digit_in_forms|reflexivity].
  - apply one_digit_sound in H as (_ & Hv & ->).
    split; [lia|]. eexists; split; [apply one_digit_in_forms; lia|reflexivity].
Qed.

Lemma re_M_sound : forall s v r,
  In (v, r) (re_M s) ->
  0 <= v <= 59 /\ exists f, In f (num_forms v) /\ s = f ++ r.
Proof.
  intros s v r H. unfold re_M in H.
  apply in_app_or in H as [H|H].
  - apply two_digits_form in H as [(a & b & Hok & Ha & Hb & ->) ->].
    apply Z.leb_le in Hok.
    split; [lia|]. eexists; split; [apply two_digit_in_forms|reflexivity].
  - apply one_digit_sound in H as (_ & Hv & ->).
    split; [lia|]. eexists; split; [apply one_digit_in_forms; lia|reflexivity].
Qed.

Lemma re_time_sound : forall s h m r,
  In ((h, m), r) (re_time s) ->
  0 <= h <= 23 /\ 0 <= m <= 59 /\
  exists sh sm, In sh (num_forms h) /\ In sm (num_forms m) /\
                s = sh ++ ":" ++ sm ++ r.
Proof.
  intros s h m r H. unfold re_time, then_lit in H.
  apply in_flat_map in H as [[h' r1] [H1 H2]].
  destruct r1 as [|c r1']; [simpl in H2; destruct H2|].
  unfold lit in H2.
  destruct (Ascii.eqb ":" c) eqn:Ec; [|destruct H2].
  apply Ascii.eqb_eq in Ec. subst c.
  apply in_map_iff in H2 as [[m' r''] [Heq H2]].
  injection Heq as <- <- <-.
  apply re_H_sound in H1 as [Hh [sh [Fh ->]]].
  apply re_M_sound in H2 as [Hm [sm [Fm ->]]].
  repeat split; try lia. exists sh, sm. repeat split; auto.
Qed.

Lemma first_full_match_ok : forall A (ms : list (A * string)) a,
  first_full_match ms = Ok a -> In (a, EmptyString) ms.
Proof.
  intros A ms a H. destruct ms as [|[a' [|c r]] ms']; simpl in H; try discriminate.
  injection H as ->. now left.
Qed.

Lemma first_full_match_exn : forall A (ms : list (A * string)) e,
  first_full_match ms = Raise e -> e = ValueError.
Proof.
  intros A ms e H. destruct ms as [|[a' [|c r]] ms']; simpl in H;
    try discriminate; now injection H.
Qed.

Lemma strptime_HM_sound : forall s h m,
  strptime_HM s = Ok (h, m) -> hm_spelling s h m.
Proof.
  intros s h m H. apply first_full_match_ok, re_time_sound in H as (Hh & Hm & sh & sm & Fh & Fm & E).
  rewrite append_empty_r in E. split; [lia|split; [lia|]]. exists sh, sm. auto.
Qed.

Lemma in_zrange : forall a n k, a <= k < a + Z.of_nat n -> In k (zrange a n).
Proof.
  intros a n k Hk. unfold zrange. apply in_map_iff.
  exists (Z.to_nat (k - a)). split; [lia|]. apply in_seq. lia.
Qed.

Definition res_eqb (r : result (Z * Z)) (hm : Z * Z) : bool :=
  match r with
  | Ok (h, m) => (h =? fst hm) && (m =? snd hm)
  | Raise _ => false
  end.

Lemma strptime_HM_all_spellings :
  forallb (fun h => forallb (fun m =>
    forallb (fun sh => forallb (fun sm =>
      res_eqb (strptime_HM (sh ++ ":" ++ sm)) (h, m)) (num_forms m)) (num_forms h))
    (zrange 0 60)) (zrange 0 24) = true.
Proof. vm_compute. reflexivity. Qed.

Lemma strptime_HM_complete : forall s h m,
  hm_spelling s h m -> strptime_HM s = Ok (h, m).
Proof.
  intros s h m (Hh & Hm & sh & sm & Fh & Fm & ->).
  pose proof strptime_HM_all_spellings as C.
  rewrite forallb_forall in C. specialize (C h (in_zrange 0 24 h ltac:(simpl; lia))).
  rewrite forallb_forall in C. specialize (C m (in_zrange 0 60 m ltac:(simpl; lia))).
  rewrite forallb_forall in C. specialize (C sh Fh).
  rewrite forallb_forall in C. specialize (C sm Fm).
  destruct (strptime_HM (sh ++ ":" ++ sm)) as [[h' m']|e]; simpl in C; [|discriminate].
  apply andb_prop in C as [C1 C2]. apply Z.eqb_eq in C1, C2. now subst.
Qed.

(** ** Lemmas about the handlers *)

Lemma py_index_days : forall d, 0 <= d <= 6 -> py_index days d = Ok (nth (Z.to_nat d) days "").
Proof.
  intros d Hd.
  assert (d = 0 \/ d = 1 \/ d = 2 \/ d = 3 \/ d = 4 \/ d = 5 \/ d = 6) as Hc by lia.
  repeat destruct Hc as [-> | Hc]; try reflexivity; subst; reflexivity.
Qed.

Lemma schedule_to_dict_ok : forall s,
  schedule_to_dict s =
  Ok {| d_id := s_id s;
        d_campaign_id := s_campaign_id s;
        d_day_of_week := s_day_of_week s;
        d_day_name := table_day_name (s_day_of_week s);
        d_start_time := strftime_HM (s_start_time s);
        d_end_time := strftime_HM (s_end_time s);
        d_is_active := s_is_active s;
        d_created_at := s_created_at s |}.
Proof.
  intro s. unfold schedule_to_dict, table_day_name.
  destruct ((0 <=? s_day_of_week s) && (s_day_of_week s <=? 6)) eqn:E.
  - apply andb_prop in E as [E1 E2]. apply Z.leb_le in E1, E2.
    rewrite py_index_days by lia. reflexivity.
  - reflexivity.
Qed.

Lemma map_result_entries : forall db l,
  map_result (schedule_entry db) l = Ok (map (schedule_entry_of db) l).
Proof.
  intros db l. induction l as [|s l IH]; [reflexivity|].
  cbn [map_result]. unfold schedule_entry at 1. rewrite schedule_to_dict_ok.
  cbn [Py.bind]. rewrite IH. reflexivity.
Qed.

Lemma required_present : forall kv,
  (forall k, In k schedule_fields -> dict_get kv k <> None) ->
  required_missing (JObj kv) schedule_fields = Ok false.
Proof.
  intros kv H.
  assert (Ht : truthy (JObj kv) = true).
  { destruct kv; [|reflexivity]. exfalso. apply (H "campaign_id"); [left|]; reflexivity. }
  unfold required_missing. rewrite Ht. simpl.
  destruct (dict_get kv "campaign_id") eqn:E1;
    [|exfalso; apply (H "campaign_id"); simpl; tauto].
  destruct (dict_get kv "day_of_week") eqn:E2;
    [|exfalso; apply (H "day_of_week"); simpl; tauto].
  destruct (dict_get kv "start_time") eqn:E3;
    [|exfalso; apply (H "start_time"); simpl; tauto].
  destruct (dict_get kv "end_time") eqn:E4;
    [|exfalso; apply (H "end_time"); simpl; tauto].
  reflexivity.
Qed.

Lemma create_schedule_parsed : forall nt db kv key campaign sv ev dv st et dow,
  (forall k, In k schedule_fields -> dict_get kv k <> None) ->
  dict_get kv "campaign_id" = Some key -> campaign_get nt db key = Ok (Some campaign) ->
  dict_get kv "start_time" = Some sv -> py_strptime_time sv = Ok st ->
  dict_get kv "end_time" = Some ev -> py_strptime_time ev = Ok et ->
  dict_get kv "day_of_week" = Some dv -> py_int dv = Ok dow ->
  create_schedule nt db (JObj kv) =
  if (0 <=? dow) && (dow <=? 6) then
    let n := posted_schedule kv campaign st et dow in
    if sql_bindable key then
      match is_active_column (n_is_active n) with
      | Ok b =>
          ({| status := 201;
              body := BSchedule {| d_id := next_schedule_id db;
                                   d_campaign_id := c_id campaign;
                                   d_day_of_week := dow;
                                   d_day_name := table_day_name dow;
                                   d_start_time := strftime_HM st;
                                   d_end_time := strftime_HM et;
                                   d_is_active := JBool b;
                                   d_created_at := now db |} |},
           {| campaigns := campaigns db;
              schedules := (schedules db ++
                            [{| s_id := next_schedule_id db;
                                s_campaign_id := c_id campaign;
                                s_day_of_week := dow;
                                s_start_time := st;
                                s_end_time := et;
                                s_is_active := JBool b;
                                s_created_at := now db |}])%list;
              next_campaign_id := next_campaign_id db;
              next_schedule_id := next_schedule_id db + 1;
              now := now db |})
      | Raise _ => (error 500 msg_failed, db)
      end
    else (error 500 msg_failed, db)
  else (error 400 msg_day, db).
Proof.
  intros nt db kv key campaign sv ev dv st et dow Hreq Hk Hc Hs Hst He Het Hd Hdow.
  unfold create_schedule, create_schedule_try.
  rewrite (required_present kv Hreq). simpl.
  rewrite Hk. simpl. rewrite Hc. rewrite Hs. simpl. rewrite Hst. simpl.
  rewrite He. simpl. rewrite Het. simpl. rewrite Hd. simpl. rewrite Hdow. simpl.
  destruct ((0 <=? dow) && (dow <=? 6)) eqn:E; simpl; [|reflexivity].
  unfold posted_schedule, dict_get_default.
  destruct (sql_bindable key); [|destruct (dict_get kv "is_active"); reflexivity].
  unfold insert_schedule, materialize.
  destruct (dict_get kv "is_active") eqn:Ea; cbn [Py.bind n_is_active];
    (destruct (is_active_column _); cbn [Py.bind]; [rewrite schedule_to_dict_ok|]; reflexivity).
Qed.

Lemma schedule_item_step_parsed : forall cid kv sv ev dv st et dow,
  dict_get kv "start_time" = Some sv -> py_strptime_time sv = Ok st ->
  dict_get kv "end_time" = Some ev -> py_strptime_time ev = Ok et ->
  dict_get kv "day_of_week" = Some dv -> py_int dv = Ok dow ->
  schedule_item_step cid (JObj kv) =
  if (0 <=? dow) && (dow <=? 6) then
    Ok (Some {| n_campaign_id := cid;
                n_day_of_week := dow;
                n_start_time := st;
                n_end_time := et;
                n_is_active := match dict_get kv "is_active" with
                               | Some v => v
                               | None => JBool true
                               end |})
  else Ok None.
Proof.
  intros cid kv sv ev dv st et dow Hs Hst He Het Hd Hdow.
  unfold schedule_item_step. simpl.
  rewrite Hs. simpl. rewrite Hst. simpl. rewrite He. simpl. rewrite Het. simpl.
  rewrite Hd. simpl. rewrite Hdow. simpl.
  destruct ((0 <=? dow) && (dow <=? 6)); simpl; [|reflexivity].
  destruct (dict_get kv "is_active"); reflexivity.
Qed.

Lemma schedule_batch_app : forall cid l1 l2,
  schedule_batch cid (l1 ++ l2) = (schedule_batch cid l1 ++ schedule_batch cid l2)%list.
Proof.
  intros cid l1 l2. induction l1 as [|x l1 IH]; [reflexivity|].
  simpl. destruct (schedule_item_step cid x) as [[n|]|e]; simpl; now rewrite IH.
Qed.






Lemma commit_schedules_rows : forall ns db,
  commit_schedules db ns =
  match materialize_from (next_schedule_id db) (now db) ns with
  | Ok rows => Ok {| campaigns := campaigns db;
                     schedules := (schedules db ++ rows)%list;
                     next_campaign_id := next_campaign_id db;
                     next_schedule_id := next_schedule_id db + Z.of_nat (length ns);
                     now := now db |}
  | Raise e => Raise e
  end.
Proof.
  induction ns as [|n ns IH]; intro db; simpl.
  - destruct db; simpl. rewrite app_nil_r, Z.add_0_r. reflexivity.
  - unfold insert_schedule.
    destruct (materialize (next_schedule_id db) (now db) n) as [s|e]; simpl; [|reflexivity].
    rewrite IH. simpl.
    destruct (materialize_from (next_schedule_id db + 1) (now db) ns) as [rows|e];
      simpl; [|reflexivity].
    rewrite <- app_assoc. simpl. do 2 f_equal. lia.
Qed.

Lemma materialize_from_length : forall ns id t rows,
  materialize_from id t ns = Ok rows -> length rows = length ns.
Proof.
  induction ns as [|n ns IH]; intros id t rows H; simpl in H.
  - now injection H as <-.
  - destruct (materialize id t n); [|discriminate H]. simpl in H.
    destruct (materialize_from (id + 1) t ns) as [rows'|] eqn:E; [|discriminate H].
    simpl in H. injection H as <-. simpl. f_equal. exact (IH _ _ _ E).
Qed.

Lemma materialize_ok : forall id t n,
  is_active_ok (n_is_active n) = true -> exists s, materialize id t n = Ok s.
Proof.
  intros id t n H. unfold is_active_ok in H. unfold materialize.
  destruct (is_active_column (n_is_active n)); [eexists; reflexivity|discriminate H].
Qed.


Lemma filter_by_date_nonempty : forall s q,
  s <> "" ->
  filter_by_date (Some s) q =
  (ymd <- strptime_YMD s ;; Ok (filter (on_weekday (weekday ymd)) q)).
Proof.
  intros s q H. unfold filter_by_date. destruct s as [|c s']; [congruence|]. reflexivity.
Qed.

Lemma strptime_YMD_exn : forall s e, strptime_YMD s = Raise e -> e = ValueError.
Proof.
  intros s e H. unfold strptime_YMD, Py.bind in H.
  destruct (first_full_match (re_date s)) as [[[y m] d]|e'] eqn:E.
  - destruct ((1 <=? y) && (d <=? days_in_month y m)); [discriminate|now injection H].
  - injection H as <-. exact (first_full_match_exn _ _ _ E).
Qed.

Lemma get_schedules_ok : forall db user date_arg rows,
  filter_by_date date_arg (schedules db) = Ok rows ->
  get_schedules db user date_arg =
  {| status := 200;
     body := BScheduleList (map (schedule_entry_of db) (filter (visible db user) rows))
                           (is_admin user) |}.
Proof.
  intros db user date_arg rows H. unfold get_schedules. rewrite H.
  rewrite map_result_entries. unfold filter_by_role, visible.
  destruct (String.eqb (u_role user) "client"); [reflexivity|].
  now rewrite forallb_filter_id by (apply forallb_forall; reflexivity).
Qed.

Ltac step_in H :=
  match type of H with
  | context [match ?x with _ => _ end] =>
      lazymatch x with
      | context [match _ with _ => _ end] => fail
      | _ => let E := fresh "E" in destruct x eqn:E; simpl in H
      end
  end.

Ltac split_in H := repeat (step_in H); try discriminate H.

Lemma getitem_ok : forall d k v,
  getitem d k = Ok v -> exists kv, d = JObj kv /\ dict_get kv k = Some v.
Proof.
  intros d k v H. destruct d as [| | | | |kv]; try discriminate H.
  simpl in H. exists kv. split; [reflexivity|].
  destruct (dict_get kv k); [now injection H as ->|discriminate H].
Qed.

Lemma create_schedule_created : forall nt db data r db',
  create_schedule nt db data = (r, db') -> status r = 201 ->
  exists kv key c st et dow s d,
    data = JObj kv /\ dict_get kv "campaign_id" = Some key /\
    campaign_get nt db key = Ok (Some c) /\ sql_bindable key = true /\ 0 <= dow <= 6 /\
    insert_schedule db (posted_schedule kv c st et dow) = Ok db' /\
    materialize (next_schedule_id db) (now db) (posted_schedule kv c st et dow) = Ok s /\
    schedule_to_dict s = Ok d /\
    r = {| status := 201; body := BSchedule d |}.
Proof.
  intros nt db data r db' H Hs.
  unfold create_schedule in H.
  destruct (create_schedule_try nt db data) as [a|e] eqn:Et;
    [|injection H as <- <-; discriminate Hs].
  subst a. unfold create_schedule_try, Py.bind in Et.
  split_in Et.
  all: try (injection Et as <- <-; discriminate Hs).
  injection Et as <- <-.
  apply getitem_ok in E1 as [kv [-> Hk]].
  assert (Ha : a8 = match dict_get kv "is_active" with Some v => v | None => JBool true end).
  { simpl in E11. destruct (dict_get kv "is_active"); now injection E11. }
  apply negb_false_iff, andb_prop in E10 as [R1 R2]. apply Z.leb_le in R1, R2.
  exists kv, a0, c, a3, a5, a7, a10, a11.
  unfold posted_schedule. rewrite <- Ha. repeat split; auto; lia.
Qed.

Lemma fields_present : forall kv key sv ev dv,
  dict_get kv "campaign_id" = Some key -> dict_get kv "start_time" = Some sv ->
  dict_get kv "end_time" = Some ev -> dict_get kv "day_of_week" = Some dv ->
  forall k, In k schedule_fields -> dict_get kv k <> None.
Proof.
  intros kv key sv ev dv H1 H2 H3 H4 k Hk.
  destruct Hk as [<-|[<-|[<-|[<-|[]]]]]; congruence.
Qed.

(** ** The claims *)

(** C1: when the campaign exists and both times parse, an integer
    [day_of_week = d] with [0 <= d <= 6] is accepted by the batch loop and
    by the validation of [POST /api/schedule]; the POST then answers the
    201 with the row stored, unless the commit cannot bind [campaign_id]
    (an array or object key) or [is_active] (a value other than null,
    true, false, 0 or 1), which makes it the 500.  Any other integer [d]
    makes the POST answer the 400 day-of-week error without storing
    anything, and makes the batch loop skip the item. *)
Theorem day_of_week_range : forall nt db kv key campaign sv ev st et d,
  dict_get kv "campaign_id" = Some key -> campaign_get nt db key = Ok (Some campaign) ->
  dict_get kv "start_time" = Some (JStr sv) -> strptime_HM sv = Ok st ->
  dict_get kv "end_time" = Some (JStr ev) -> strptime_HM ev = Ok et ->
  dict_get kv "day_of_week" = Some (JInt d) ->
  let is_active := match dict_get kv "is_active" with Some v => v | None => JBool true end in
  (0 <= d <= 6 ->
     (forall cid pre post, exists n,
        n_day_of_week n = d /\
        schedule_batch cid (pre ++ JObj kv :: post) =
        (schedule_batch cid pre ++ n :: schedule_batch cid post)%list) /\
     (sql_bindable key = true -> is_active_ok is_active = true ->
        status (fst (create_schedule nt db (JObj kv))) = 201 /\
        insert_schedule db (posted_schedule kv campaign st et d) =
          Ok (snd (create_schedule nt db (JObj kv)))) /\
     (sql_bindable key = false \/ is_active_ok is_active = false ->
        create_schedule nt db (JObj kv) = (error 500 msg_failed, db))) /\
  (~ (0 <= d <= 6) ->
     create_schedule nt db (JObj kv) = (error 400 msg_day, db) /\
     forall cid pre post,
       schedule_batch cid (pre ++ JObj kv :: post) =
       (schedule_batch cid pre ++ schedule_batch cid post)%list).
Proof.
  intros nt db kv key campaign sv ev st et d Hk Hc Hs Hst He Het Hd is_active.
  pose proof (fields_present kv _ _ _ _ Hk Hs He Hd) as Hreq.
  pose proof (create_schedule_parsed nt db kv key campaign (JStr sv) (JStr ev) (JInt d)
                st et d Hreq Hk Hc Hs Hst He Het Hd eq_refl) as Hpost.
  split; intro Hr.
  - assert (Hb : (0 <=? d) && (d <=? 6) = true)
      by (apply andb_true_intro; split; apply Z.leb_le; lia).
    rewrite Hb in Hpost. cbv zeta in Hpost.
    unfold posted_schedule at 1 in Hpost. cbn [n_is_active] in Hpost.
    fold is_active in Hpost.
    split; [|split].
    + intros cid pre post. eexists. split; [|].
      2: { rewrite (schedule_batch_app cid pre (JObj kv :: post)). simpl.
           rewrite (schedule_item_step_parsed cid kv (JStr sv) (JStr ev) (JInt d)
                      st et d Hs Hst He Het Hd eq_refl), Hb.
           reflexivity. }
      reflexivity.
    + intros Hkey Hia. rewrite Hpost, Hkey.
      unfold is_active_ok in Hia.
      destruct (is_active_column is_active) as [b|e] eqn:Eb; [|discriminate Hia].
      split; [reflexivity|].
      unfold insert_schedule, materialize, posted_schedule. cbn [n_is_active].
      fold is_active. rewrite Eb. reflexivity.
    + intros Hbad. rewrite Hpost. unfold is_active_ok in Hbad.
      destruct (sql_bindable key); [|reflexivity].
      destruct Hbad as [Hbad|Hbad]; [discriminate Hbad|].
      destruct (is_active_column is_active); [discriminate Hbad|reflexivity].
  - assert (Hb : (0 <=? d) && (d <=? 6) = false).
    { destruct (0 <=? d) eqn:E1; destruct (d <=? 6) eqn:E2; try reflexivity.
      apply Z.leb_le in E1, E2. lia. }
    rewrite Hb in Hpost. split; [exact Hpost|].
    intros cid pre post. rewrite (schedule_batch_app cid pre (JObj kv :: post)). simpl.
    rewrite (schedule_item_step_parsed cid kv (JStr sv) (JStr ev) (JInt d)
               st et d Hs Hst He Het Hd eq_refl), Hb.
    reflexivity.
Qed.

Lemma day_of_week_range_witness :
  create_schedule sample_numeric_text sample_db
    (JObj (sample_fields (JInt 9) "09:00" "17:00")) =
  (error 400 msg_day, sample_db).
Proof.
  apply (proj2 (day_of_week_range sample_numeric_text sample_db
                  (sample_fields (JInt 9) "09:00" "17:00") (JInt 1) sample_campaign
                  "09:00" "17:00" (9, 0) (17, 0) 9
                  eq_refl eq_refl eq_refl eq_refl eq_refl eq_refl eq_refl)).
  lia.
Defined.






(** C3: whenever the date argument is accepted, [GET /api/schedule]
    answers the entries of the date-filtered rows the caller may see; for
    a caller of role ["client"] these are exactly the rows whose campaign
    has [client_id] equal to the caller's id, for any other role they are
    all the date-filtered rows. *)
Theorem get_schedules_role_scope : forall db user date_arg rows,
  filter_by_date date_arg (schedules db) = Ok rows ->
  get_schedules db user date_arg =
    {| status := 200;
       body := BScheduleList (map (schedule_entry_of db) (filter (visible db user) rows))
                             (is_admin user) |} /\
  (u_role user = "client" ->
     forall s, In s (filter (visible db user) rows) <->
               In s rows /\ exists c, campaign_of db s = Some c /\
                                      c_client_id c = Some (u_id user)) /\
  (u_role user <> "client" -> filter (visible db user) rows = rows).
Proof.
  intros db user date_arg rows Hd.
  split; [apply get_schedules_ok; exact Hd|split].
  - intros Hr s. unfold visible. rewrite Hr. simpl. rewrite filter_In.
    unfold owned_by. split.
    + intros [Hin Ho]. split; [exact Hin|].
      destruct (campaign_of db s) as [c|]; [|discriminate Ho].
      exists c. split; [reflexivity|].
      destruct (c_client_id c) as [cid|]; [|discriminate Ho].
      apply Z.eqb_eq in Ho. now subst.
    + intros [Hin (c & Hc & Hcl)]. split; [exact Hin|].
      rewrite Hc, Hcl. apply Z.eqb_refl.
  - intros Hr. unfold visible.
    destruct (String.eqb (u_role user) "client") eqn:E.
    + apply String.eqb_eq in E. contradiction.
    + apply forallb_filter_id. apply forallb_forall. reflexivity.
Qed.

Definition sample_schedule (id day : Z) : Schedule :=
  {| s_id := id; s_campaign_id := 1; s_day_of_week := day;
     s_start_time := (9, 0); s_end_time := (17, 0);
     s_is_active := JBool true; s_created_at := "2024-01-01T00:00:00" |}.

Definition sample_db2 : DB :=
  {| campaigns := [sample_campaign;
                   {| c_id := 2; c_name := JStr "Other"; c_description := JNull;
                      c_status := JStr "active"; c_start_date := None;
                      c_end_date := None; c_created_by := 1; c_client_id := Some 8;
                      c_created_at := "2023-12-01T00:00:00";
                      c_updated_at := "2023-12-01T00:00:00" |}];
     schedules := [sample_schedule 1 2;
                   {| s_id := 2; s_campaign_id := 2; s_day_of_week := 2;
                      s_start_time := (10, 0); s_end_time := (11, 0);
                      s_is_active := JBool true;
                      s_created_at := "2024-01-01T00:00:00" |};
                   sample_schedule 3 4];
     next_campaign_id := 3; next_schedule_id := 4;
     now := "2024-01-02T00:00:00" |}.

Lemma get_schedules_role_scope_witness :
  get_schedules sample_db2 sample_client (Some "2024-01-03") =
  {| status := 200;
     body := BScheduleList [schedule_entry_of sample_db2 (sample_schedule 1 2)] false |}.
Proof.
  rewrite (proj1 (get_schedules_role_scope sample_db2 sample_client (Some "2024-01-03")
                   [sample_schedule 1 2;
                    {| s_id := 2; s_campaign_id := 2; s_day_of_week := 2;
                       s_start_time := (10, 0); s_end_time := (11, 0);
                       s_is_active := JBool true;
                       s_created_at := "2024-01-01T00:00:00" |}] eq_refl)).
  reflexivity.
Defined.

(** C4 (amended): ['%H:%M'] accepts exactly the strings [H:M] where [H]
    spells an hour 0..23 and [M] a minute 0..59, each with one digit (for
    values below 10) or two digits; every other string is rejected with
    [ValueError], which [POST /api/schedule] answers with the 400
    time-format error. *)
Theorem time_format_accepted :
  (forall s h m, strptime_HM s = Ok (h, m) <-> hm_spelling s h m) /\
  (forall s, (forall h m, ~ hm_spelling s h m) -> strptime_HM s = Raise ValueError) /\
  (forall h m, 0 <= h <= 23 -> 0 <= m <= 59 ->
     strptime_HM (two_digit h ++ ":" ++ two_digit m) = Ok (h, m)) /\
  (forall nt db kv key c s1 s2,
     dict_get kv "campaign_id" = Some key -> campaign_get nt db key = Ok (Some c) ->
     dict_get kv "day_of_week" <> None ->
     dict_get kv "start_time" = Some (JStr s1) -> dict_get kv "end_time" = Some (JStr s2) ->
     (forall h m, ~ hm_spelling s1 h m) \/ (forall h m, ~ hm_spelling s2 h m) ->
     create_schedule nt db (JObj kv) = (error 400 msg_time, db)).
Proof.
  assert (Hrej : forall s, (forall h m, ~ hm_spelling s h m) ->
                           strptime_HM s = Raise ValueError).
  { intros s Hn. destruct (strptime_HM s) as [[h m]|e] eqn:E.
    - exfalso. apply (Hn h m). now apply strptime_HM_sound.
    - unfold strptime_HM in E. now rewrite (first_full_match_exn _ _ _ E). }
  split; [|split; [exact Hrej|split]].
  - intros s h m. split; [apply strptime_HM_sound|apply strptime_HM_complete].
  - intros h m Hh Hm. apply strptime_HM_complete.
    split; [lia|split; [lia|]]. exists (two_digit h), (two_digit m).
    split; [apply two_digit_in_forms|split; [apply two_digit_in_forms|reflexivity]].
  - intros nt db kv key c s1 s2 Hk Hc Hd Hs He Hbad.
    destruct (dict_get kv "day_of_week") as [dv|] eqn:Edv; [|congruence].
    pose proof (fields_present kv _ _ _ _ Hk Hs He Edv) as Hreq.
    unfold create_schedule, create_schedule_try.
    rewrite (required_present kv Hreq). simpl.
    rewrite Hk. simpl. rewrite Hc. rewrite Hs. simpl.
    destruct Hbad as [Hb1|Hb2].
    + rewrite (Hrej s1 Hb1). reflexivity.
    + destruct (strptime_HM s1) as [t1|e1] eqn:E1.
      * simpl. rewrite He. simpl. rewrite (Hrej s2 Hb2). reflexivity.
      * unfold strptime_HM in E1. rewrite (first_full_match_exn _ _ _ E1). reflexivity.
Qed.

Lemma time_format_accepted_witness :
  create_schedule sample_numeric_text sample_db
    (JObj (sample_fields (JInt 2) "9:00" "24:00")) =
  (error 400 msg_time, sample_db).
Proof.
  destruct time_format_accepted as (Hiff & _ & _ & H).
  apply (H sample_numeric_text sample_db (sample_fields (JInt 2) "9:00" "24:00") (JInt 1) sample_campaign
           "9:00" "24:00" eq_refl eq_refl ltac:(discriminate) eq_refl eq_refl).
  right. intros h m Hsp. apply Hiff in Hsp. vm_compute in Hsp. discriminate Hsp.
Defined.

(** C4 (counterexample): a string that is not strict [HH:MM] is accepted:
    ["9:00"] parses as 09:00. *)
Lemma time_format_not_strict :
  ~ (forall s, ~ strict_HHMM s -> strptime_HM s = Raise ValueError).
Proof.
  intro H.
  assert (Hns : ~ strict_HHMM "9:00").
  { intros (h & m & _ & _ & E). apply (f_equal String.length) in E.
    simpl in E. discriminate E. }
  specialize (H "9:00" Hns). vm_compute in H. discriminate H.
Qed.

(** C5 (code bug): a [day_of_week] that does not parse as an integer,
    here ["abc"] with the campaign found and both times valid, makes
    [int()] raise [ValueError] outside the [try] that handles the times,
    so [POST /api/schedule] answers the generic 500, not a 400 with a
    specific message; the batch loop of [create_campaign] catches the
    same [ValueError] and skips the item. *)
Theorem nonint_day_server_error :
  (forall nt, create_schedule nt sample_db (JObj (sample_fields (JStr "abc") "09:00" "17:00")) =
                (error 500 msg_failed, sample_db)) /\
  schedule_item_step 1 (sample_item (JStr "abc") "09:00" "17:00") = Raise ValueError /\
  schedule_batch 1 [sample_item (JStr "abc") "09:00" "17:00"] = [].
Proof. split; [intros nt|split]; vm_compute; reflexivity. Qed.

(** C6 (amended): an absent or empty [date] argument applies no date
    filter; any other argument that ['%Y-%m-%d'] does not parse (four-digit
    year from 1, one- or two-digit month, one- or two-digit or
    space-padded day, a real calendar date) is answered with the 400; an
    argument that parses restricts the caller's visible rows to exactly
    those whose [day_of_week] is the date's weekday, with no condition on
    the campaign's dates. *)
Theorem get_schedules_date_filter : forall db user,
  get_schedules db user (Some "") = get_schedules db user None /\
  get_schedules db user None =
    {| status := 200;
       body := BScheduleList (map (schedule_entry_of db)
                                  (filter (visible db user) (schedules db)))
                             (is_admin user) |} /\
  forall s, s <> "" ->
    ((exists ymd, strptime_YMD s = Ok ymd) \/ strptime_YMD s = Raise ValueError) /\
    (strptime_YMD s = Raise ValueError ->
       get_schedules db user (Some s) = error 400 "Invalid date format. Use YYYY-MM-DD.") /\
    (forall ymd, strptime_YMD s = Ok ymd ->
       get_schedules db user (Some s) =
       {| status := 200;
          body := BScheduleList
                    (map (schedule_entry_of db)
                         (filter (visible db user)
                                 (filter (fun r => s_day_of_week r =? weekday ymd)
                                         (schedules db))))
                    (is_admin user) |}).
Proof.
  intros db user. split; [reflexivity|split].
  - apply get_schedules_ok. reflexivity.
  - intros s Hs. split; [|split].
    + destruct (strptime_YMD s) as [ymd|e] eqn:E; [left; eauto|right].
      now rewrite (strptime_YMD_exn s e E).
    + intros E. unfold get_schedules. rewrite filter_by_date_nonempty by exact Hs.
      rewrite E. reflexivity.
    + intros ymd E. apply get_schedules_ok.
      rewrite filter_by_date_nonempty by exact Hs. rewrite E. reflexivity.
Qed.

Lemma get_schedules_date_filter_witness :
  get_schedules sample_db2 sample_admin (Some "2024-1-3") =
  {| status := 200;
     body := BScheduleList
               (map (schedule_entry_of sample_db2)
                    (filter (visible sample_db2 sample_admin)
                            (filter (fun r => s_day_of_week r =? 2) (schedules sample_db2))))
               true |}.
Proof.
  destruct (get_schedules_date_filter sample_db2 sample_admin) as (_ & _ & H).
  destruct (H "2024-1-3" ltac:(discriminate)) as (_ & _ & Hok).
  exact (Hok (2024, 1, 3) eq_refl).
Defined.

(** C6 (counterexample): an empty [date] argument is not [YYYY-MM-DD] yet
    the answer is the 200 with every visible row. *)
Lemma empty_date_not_rejected :
  ~ (forall db user s, ~ strict_YYYYMMDD s -> status (get_schedules db user (Some s)) = 400).
Proof.
  intro H.
  assert (Hns : ~ strict_YYYYMMDD "").
  { intros (y & m & d & _ & _ & _ & E). unfold four_digit, two_digit in E.
    simpl in E. discriminate E. }
  specialize (H sample_db sample_admin "" Hns). vm_compute in H. discriminate H.
Qed.

Lemma any_missing_obj : forall kv ks,
  any_missing (JObj kv) ks =
  Ok (existsb (fun k => match dict_get kv k with None => true | Some _ => false end) ks).
Proof.
  intros kv ks. induction ks as [|k ks IH]; [reflexivity|].
  simpl. destruct (dict_get kv k); simpl; [exact IH|reflexivity].
Qed.

(** C7 (amended): a JSON object body missing one of [campaign_id],
    [day_of_week], [start_time], [end_time] gets the 400; one whose
    [campaign_id] finds no campaign gets the 404; one whose [campaign_id]
    [Query.get] cannot use as a key (an integer outside SQLite's 64 bits,
    an array not of one element, an object other than [{'id': v}], a
    nested array or object) gets the 500; none of them stores anything.
    An integer key in range finds the campaign of that id, and a scalar
    [v] finds the same campaign as [[v]] and [{'id': v}].  A 201 carries
    [to_dict] of the row it appended to the table. *)
Theorem create_schedule_request_errors : forall nt db kv,
  ((exists k, In k schedule_fields /\ dict_get kv k = None) ->
     create_schedule nt db (JObj kv) = (error 400 msg_required, db)) /\
  (forall key, (forall k, In k schedule_fields -> dict_get kv k <> None) ->
     dict_get kv "campaign_id" = Some key -> campaign_get nt db key = Ok None ->
     create_schedule nt db (JObj kv) = (error 404 msg_not_found, db)) /\
  (forall key e, (forall k, In k schedule_fields -> dict_get kv k <> None) ->
     dict_get kv "campaign_id" = Some key -> campaign_get nt db key = Raise e ->
     create_schedule nt db (JObj kv) = (error 500 msg_failed, db)) /\
  (forall n, - 2 ^ 63 <= n < 2 ^ 63 -> campaign_get nt db (JInt n) = Ok (campaign_by_id db n)) /\
  (forall n, ~ (- 2 ^ 63 <= n < 2 ^ 63) -> campaign_get nt db (JInt n) = Raise DBError) /\
  (forall v, sql_bindable v = true ->
     campaign_get nt db (JArr [v]) = campaign_get nt db v /\
     campaign_get nt db (JObj [("id", v)]) = campaign_get nt db v) /\
  (forall r db', create_schedule nt db (JObj kv) = (r, db') -> status r = 201 ->
     exists n s d,
       insert_schedule db n = Ok db' /\
       materialize (next_schedule_id db) (now db) n = Ok s /\
       In s (schedules db') /\
       schedule_to_dict s = Ok d /\
       r = {| status := 201; body := BSchedule d |}).
Proof.
  intros nt db kv. split; [|split; [|split; [|split; [|split; [|split]]]]].
  - intros (k & Hk & Hn).
    assert (Hm : required_missing (JObj kv) schedule_fields = Ok true).
    { unfold required_missing. destruct (truthy (JObj kv)); [|reflexivity].
      simpl negb. cbv iota. rewrite any_missing_obj. f_equal.
      apply existsb_exists. exists k. rewrite Hn. auto. }
    unfold create_schedule, create_schedule_try. rewrite Hm. reflexivity.
  - intros key Hreq Hk Hc.
    unfold create_schedule, create_schedule_try.
    rewrite (required_present kv Hreq). simpl. rewrite Hk. simpl. rewrite Hc.
    reflexivity.
  - intros key e Hreq Hk Hc.
    unfold create_schedule, create_schedule_try.
    rewrite (required_present kv Hreq). simpl. rewrite Hk. simpl. rewrite Hc.
    reflexivity.
  - intros n Hn. unfold campaign_get, pk_lookup, sqlite_int.
    destruct (Z.leb_spec (- 2 ^ 63) n); destruct (Z.ltb_spec n (2 ^ 63));
      simpl; first [reflexivity | lia].
  - intros n Hn. unfold campaign_get, pk_lookup, sqlite_int.
    destruct (Z.leb_spec (- 2 ^ 63) n); destruct (Z.ltb_spec n (2 ^ 63));
      simpl; first [reflexivity | lia].
  - intros v Hv. destruct v; try discriminate Hv; split; reflexivity.
  - intros r db' H Hs.
    destruct (create_schedule_created nt db (JObj kv) r db' H Hs)
      as (kv' & key & c & st & et & dow & s & d & _ & _ & _ & _ & _ & Hins & Hm & Hd & ->).
    exists (posted_schedule kv' c st et dow), s, d.
    split; [exact Hins|split; [exact Hm|split; [|split; [exact Hd|reflexivity]]]].
    unfold insert_schedule in Hins. rewrite Hm in Hins. cbn [Py.bind] in Hins.
    injection Hins as <-. simpl. apply in_or_app. right. now left.
Qed.

Lemma create_schedule_request_errors_witness :
  create_schedule sample_numeric_text sample_db
    (JObj (sample_fields (JInt 2) "09:00" "17:00" ++ [("campaign_id", JInt 5)])) =
  (error 404 msg_not_found, sample_db).
Proof.
  destruct (create_schedule_request_errors sample_numeric_text sample_db
              (sample_fields (JInt 2) "09:00" "17:00" ++ [("campaign_id", JInt 5)]))
    as (_ & H & _).
  apply (H (JInt 5)); [|reflexivity|reflexivity].
  intros k Hk. destruct Hk as [<-|[<-|[<-|[<-|[]]]]]; discriminate.
Defined.

(** C7 fails: a [campaign_id] that references no campaign is not always
    answered with a client error: the integer [2^70], which no campaign
    has, cannot be bound by [sqlite3] and the request is the 500. *)
Lemma campaign_id_overflow_server_error :
  ~ (forall nt db kv n,
       (forall k, In k schedule_fields -> dict_get kv k <> None) ->
       dict_get kv "campaign_id" = Some (JInt n) -> campaign_by_id db n = None ->
       create_schedule nt db (JObj kv) = (error 404 msg_not_found, db)).
Proof.
  intros H.
  assert (Hreq : forall k, In k schedule_fields ->
            dict_get (sample_fields (JInt 2) "09:00" "17:00" ++ [("campaign_id", JInt (2 ^ 70))]) k
            <> None).
  { intros k Hk. destruct Hk as [<-|[<-|[<-|[<-|[]]]]]; discriminate. }
  pose proof (H sample_numeric_text sample_db _ (2 ^ 70) Hreq eq_refl eq_refl) as H1.
  vm_compute in H1. discriminate H1.
Qed.

(** C8: with the campaign found, both times parsed and the day in range,
    the batch loop and [POST /api/schedule] accept the schedule whatever
    the order of the two times: no rejection when [end_time] is equal to
    or earlier than [start_time].  The POST stores the row with the two
    times as given (201) when its commit can bind [campaign_id] and
    [is_active]. *)
Theorem time_order_unchecked : forall nt db kv key campaign sv ev dv st et dow cid,
  dict_get kv "campaign_id" = Some key -> campaign_get nt db key = Ok (Some campaign) ->
  dict_get kv "start_time" = Some sv -> py_strptime_time sv = Ok st ->
  dict_get kv "end_time" = Some ev -> py_strptime_time ev = Ok et ->
  dict_get kv "day_of_week" = Some dv -> py_int dv = Ok dow ->
  0 <= dow <= 6 ->
  (exists n, schedule_item_step cid (JObj kv) = Ok (Some n) /\
             n_start_time n = st /\ n_end_time n = et) /\
  (sql_bindable key = true ->
   is_active_ok (match dict_get kv "is_active" with Some v => v | None => JBool true end) = true ->
   status (fst (create_schedule nt db (JObj kv))) = 201 /\
   exists s,
     materialize (next_schedule_id db) (now db) (posted_schedule kv campaign st et dow) = Ok s /\
     In s (schedules (snd (create_schedule nt db (JObj kv)))) /\
     s_start_time s = st /\ s_end_time s = et).
Proof.
  intros nt db kv key campaign sv ev dv st et dow cid Hk Hc Hs Hst He Het Hd Hdow Hr.
  pose proof (fields_present kv _ _ _ _ Hk Hs He Hd) as Hreq.
  assert (Hb : (0 <=? dow) && (dow <=? 6) = true)
    by (apply andb_true_intro; split; apply Z.leb_le; lia).
  split.
  - rewrite (schedule_item_step_parsed cid kv sv ev dv st et dow Hs Hst He Het Hd Hdow), Hb.
    eexists. split; [reflexivity|split; reflexivity].
  - intros Hkey Hia.
    rewrite (create_schedule_parsed nt db kv key campaign sv ev dv st et dow
               Hreq Hk Hc Hs Hst He Het Hd Hdow), Hb, Hkey.
    cbv zeta. unfold posted_schedule at 1 3. cbn [n_is_active].
    unfold is_active_ok in Hia. unfold materialize. cbn [n_is_active].
    destruct (is_active_column _) as [b|e]; [|discriminate Hia].
    split; [reflexivity|]. cbn [Py.bind]. eexists. split; [reflexivity|].
    split; [|split; reflexivity].
    simpl. apply in_or_app. right. now left.
Qed.

Lemma time_order_unchecked_witness :
  status (fst (create_schedule sample_numeric_text sample_db
                 (JObj (sample_fields (JInt 4) "18:00" "08:00")))) = 201.
Proof.
  exact (proj1 (proj2 (time_order_unchecked sample_numeric_text sample_db
                  (sample_fields (JInt 4) "18:00" "08:00")
                  (JInt 1) sample_campaign (JStr "18:00") (JStr "08:00") (JInt 4)
                  (18, 0) (8, 0) 4 1
                  eq_refl eq_refl eq_refl eq_refl eq_refl eq_refl eq_refl eq_refl
                  ltac:(lia)) eq_refl eq_refl)).
Defined.




(** C10: [to_dict] never raises; [day_name] is [days[day_of_week]] for a
    stored day in [0, 6] and ['Unknown'] for any other stored day. *)
Theorem schedule_to_dict_total : forall s,
  exists d, schedule_to_dict s = Ok d /\
            d_day_name d = (if (0 <=? s_day_of_week s) && (s_day_of_week s <=? 6)
                            then nth (Z.to_nat (s_day_of_week s)) days ""
                            else "Unknown").
Proof.
  intro s. eexists. split; [apply schedule_to_dict_ok|reflexivity].
Qed.

(** ** Further properties of [src/app.py] *)

(** *** Upload helpers *)

Lemma rsplit_dot_shape : forall s,
  (substring_of "." s = false /\ rsplit_dot s = [s]) \/
  (substring_of "." s = true /\ exists a b, rsplit_dot s = [a; b]).
Proof.
  induction s as [|c s IH]; [left; split; reflexivity|].
  assert (Hs : substring_of "." (String c s) = Ascii.eqb "." c || substring_of "." s)
    by (simpl; now rewrite andb_true_r).
  rewrite Hs, Ascii.eqb_sym. simpl rsplit_dot.
  destruct IH as [[Hf Hr]|[Ht (a & b & Hr)]]; rewrite Hr.
  - destruct (Ascii.eqb c ".") eqn:E.
    + right. split; [reflexivity|]. eauto.
    + left. rewrite Hf. split; reflexivity.
  - right. rewrite Ht, orb_true_r. split; [reflexivity|]. eauto.
Qed.

Lemma rsplit_dot_ext : forall base ext,
  substring_of "." ext = false -> rsplit_dot (base ++ "." ++ ext) = [base; ext].
Proof.
  intros base ext He. induction base as [|c base IH].
  - simpl. destruct (rsplit_dot_shape ext) as [[_ Hr]|[Ht _]]; [|congruence].
    rewrite Hr. reflexivity.
  - change (String c base ++ "." ++ ext) with (String c (base ++ "." ++ ext)).
    cbn [rsplit_dot]. rewrite IH. reflexivity.
Qed.

Lemma dotted_name : forall base ext,
  substring_of "." ext = false -> substring_of "." (base ++ "." ++ ext) = true.
Proof.
  intros base ext He.
  destruct (rsplit_dot_shape (base ++ "." ++ ext)) as [[_ Hr]|[Ht _]]; [|exact Ht].
  rewrite (rsplit_dot_ext base ext He) in Hr. discriminate Hr.
Qed.

Lemma allowed_split : forall e,
  existsb (String.eqb e) ALLOWED_EXTENSIONS =
  existsb (String.eqb e) ["png"; "jpg"; "jpeg"; "gif"] ||
  existsb (String.eqb e) ["mp4"; "avi"; "mov"; "webm"].
Proof.
  intro e. change ALLOWED_EXTENSIONS with
    (["png"; "jpg"; "jpeg"; "gif"] ++ ["mp4"; "avi"; "mov"; "webm"])%list.
  apply existsb_app.
Qed.

Lemma py_index_second : forall {A} (a b : A), py_index [a; b] 1 = Ok b.
Proof. reflexivity. Qed.

(** X1: [allowed_file] and [get_file_type] never raise and agree: a file
    name is allowed exactly when its type is ['image'] or ['video'] rather
    than ['unknown']. *)
Theorem upload_helpers_agree : forall filename,
  exists allowed type,
    allowed_file filename = Ok allowed /\ get_file_type filename = Ok type /\
    In type ["image"; "video"; "unknown"] /\
    (allowed = true <-> type <> "unknown").
Proof.
  intro f. unfold allowed_file, get_file_type.
  destruct (rsplit_dot_shape f) as [[Hf _]|[Ht (a & b & Hr)]].
  - rewrite Hf. cbn [Py.bind]. exists false, "unknown".
    split; [reflexivity|split; [reflexivity|split; [simpl; tauto|]]].
    split; [intro H; discriminate H|intro H; contradiction H; reflexivity].
  - rewrite Ht, Hr, py_index_second. cbn [Py.bind].
    rewrite allowed_split.
    destruct (existsb (String.eqb (py_lower b)) ["png"; "jpg"; "jpeg"; "gif"]);
      destruct (existsb (String.eqb (py_lower b)) ["mp4"; "avi"; "mov"; "webm"]);
      cbn [orb]; eexists; eexists;
      (split; [reflexivity|split; [reflexivity|split; [simpl; tauto|]]]);
      split; intro H;
      first [discriminate H | reflexivity | discriminate | contradiction H; reflexivity].
Qed.

(** X2: only the text after the last dot of a file name counts, and its
    letter case does not: two names whose last extensions agree once
    lower-cased are allowed alike and get the same type. *)
Theorem file_type_by_last_extension : forall base1 base2 ext1 ext2,
  substring_of "." ext1 = false -> substring_of "." ext2 = false ->
  py_lower ext1 = py_lower ext2 ->
  allowed_file (base1 ++ "." ++ ext1) = allowed_file (base2 ++ "." ++ ext2) /\
  get_file_type (base1 ++ "." ++ ext1) = get_file_type (base2 ++ "." ++ ext2).
Proof.
  intros b1 b2 e1 e2 H1 H2 Hl. unfold allowed_file, get_file_type.
  rewrite (dotted_name b1 e1 H1), (dotted_name b2 e2 H2),
          (rsplit_dot_ext b1 e1 H1), (rsplit_dot_ext b2 e2 H2).
  unfold py_index. simpl. rewrite Hl. split; reflexivity.
Qed.

Lemma file_type_by_last_extension_witness :
  allowed_file ("summer.2024" ++ "." ++ "JPG") = allowed_file ("x" ++ "." ++ "jpg") /\
  get_file_type ("summer.2024" ++ "." ++ "JPG") = get_file_type ("x" ++ "." ++ "jpg").
Proof.
  apply file_type_by_last_extension; vm_compute; reflexivity.
Defined.

(** *** Campaign list, update and deletion *)

(** X3: [GET /api/campaigns] always answers 200; an admin gets every
    campaign, a client exactly the campaigns whose [client_id] is the
    client's id, any other role exactly the campaigns whose status is
    ['active']. *)
Theorem get_campaigns_scope : forall db user,
  get_campaigns db user =
    {| ans_status := 200; ans_body := RCampaigns (campaigns_for db user) |} /\
  (u_role user = "admin" -> campaigns_for db user = campaigns db) /\
  (u_role user = "client" ->
     forall c, In c (campaigns_for db user) <->
               In c (campaigns db) /\ c_client_id c = Some (u_id user)) /\
  (u_role user <> "admin" -> u_role user <> "client" ->
     forall c, In c (campaigns_for db user) <->
               In c (campaigns db) /\ c_status c = JStr "active").
Proof.
  intros db user. split; [reflexivity|split; [|split]].
  - intro H. unfold campaigns_for. now rewrite H.
  - intros H c. unfold campaigns_for. rewrite H. simpl. rewrite filter_In.
    unfold client_is. destruct (c_client_id c) as [cid|].
    + rewrite Z.eqb_eq. split; intros [Hi E]; split; auto; congruence.
    + split; intros [_ E]; discriminate E.
  - intros Ha Hc c. unfold campaigns_for.
    destruct (String.eqb (u_role user) "admin") eqn:Ea; [apply String.eqb_eq in Ea; contradiction|].
    destruct (String.eqb (u_role user) "client") eqn:Ec; [apply String.eqb_eq in Ec; contradiction|].
    rewrite filter_In. destruct (c_status c) as [| | | s | |];
      try (split; [intros [_ E]; discriminate E|intros [_ E]; discriminate E]).
    rewrite String.eqb_eq. split; intros [Hi E]; split; auto; congruence.
Qed.

Lemma get_campaigns_scope_witness :
  campaigns_for sample_db2 sample_client = [sample_campaign] /\
  (forall c, In c (campaigns_for sample_db2 sample_client) <->
             In c (campaigns sample_db2) /\ c_client_id c = Some 7).
Proof.
  split; [reflexivity|].
  exact (proj1 (proj2 (proj2 (get_campaigns_scope sample_db2 sample_client))) eq_refl).
Defined.

Lemma permission_denied_iff : forall user c,
  permission_denied user c = true <->
  is_admin user = false /\ c_created_by c <> u_id user /\ c_client_id c <> Some (u_id user).
Proof.
  intros user c. unfold permission_denied, client_is.
  rewrite !andb_true_iff, !negb_true_iff, Z.eqb_neq.
  destruct (c_client_id c) as [cid|].
  - rewrite Z.eqb_neq.
    split; [intros [[H1 H2] H3] | intros (H1 & H2 & H3)]; repeat split; auto; congruence.
  - split; [intros [[H1 H2] H3] | intros (H1 & H2 & H3)]; repeat split; auto; congruence.
Qed.

Lemma find_none_intro : forall {A} (f : A -> bool) l,
  (forall x, In x l -> f x = false) -> find f l = None.
Proof.
  intros A f l H. destruct (find f l) as [x|] eqn:E; [|reflexivity].
  apply find_some in E as [Hin Hx]. rewrite (H x Hin) in Hx. discriminate Hx.
Qed.

(** X4: [PUT] and [DELETE /api/campaigns/<id>] share their guard: an
    unknown id is answered 500 (the [NotFound] of [get_or_404] is caught
    by the handler's [except Exception]), a caller who is neither admin
    nor the campaign's creator nor its assigned client gets 403, and in
    both cases nothing changes; every other caller passes the guard. *)
Theorem campaign_modify_guard : forall db user id,
  (campaign_by_id db id = None ->
     delete_campaign db user id = (fail 500 "Failed to delete campaign", db) /\
     forall fromiso nt data,
       update_campaign fromiso nt db user id data = (fail 500 "Failed to update campaign", db)) /\
  (forall c, campaign_by_id db id = Some c ->
     is_admin user = false -> c_created_by c <> u_id user ->
     c_client_id c <> Some (u_id user) ->
     delete_campaign db user id = (fail 403 "Permission denied", db) /\
     forall fromiso nt data,
       update_campaign fromiso nt db user id data = (fail 403 "Permission denied", db)) /\
  (forall c, campaign_by_id db id = Some c ->
     is_admin user = true \/ c_created_by c = u_id user \/ c_client_id c = Some (u_id user) ->
     ans_status (fst (delete_campaign db user id)) = 200 /\
     forall fromiso nt data,
       ans_status (fst (update_campaign fromiso nt db user id data)) <> 403).
Proof.
  intros db user id. split; [|split].
  - intro H. unfold delete_campaign, update_campaign. rewrite H. auto.
  - intros c H Ha Hc Hl.
    assert (Hd : permission_denied user c = true) by (apply permission_denied_iff; auto).
    unfold delete_campaign, update_campaign. rewrite H, Hd. auto.
  - intros c H Hok.
    assert (Hd : permission_denied user c = false).
    { destruct (permission_denied user c) eqn:E; [|reflexivity].
      apply permission_denied_iff in E as (E1 & E2 & E3).
      destruct Hok as [E|[E|E]]; congruence. }
    unfold delete_campaign, update_campaign. rewrite H, Hd. split; [reflexivity|].
    intros fromiso nt data. destruct (update_campaign_try fromiso nt (now db) c data);
      simpl; discriminate.
Qed.

Lemma campaign_modify_guard_witness :
  delete_campaign sample_db {| u_id := 9; u_role := "viewer" |} 1 =
    (fail 403 "Permission denied", sample_db).
Proof.
  exact (proj1 (proj1 (proj2 (campaign_modify_guard sample_db {| u_id := 9; u_role := "viewer" |} 1))
                  sample_campaign eq_refl eq_refl ltac:(discriminate) ltac:(discriminate))).
Defined.

Lemma filter_by_date_incl : forall d q rows,
  filter_by_date d q = Ok rows -> forall s, In s rows -> In s q.
Proof.
  intros d q rows H s Hs. unfold filter_by_date in H.
  destruct d as [str|]; [|injection H as <-; exact Hs].
  destruct (truthy (JStr str)); [|injection H as <-; exact Hs].
  destruct (strptime_YMD str) as [ymd|e]; simpl in H; [|discriminate H].
  injection H as <-. apply filter_In in Hs. apply Hs.
Qed.

(** The entries of a 200 from [GET /api/schedule] come from stored rows. *)
Lemma get_schedules_entries_from : forall db user date entries b,
  get_schedules db user date = {| status := 200; body := BScheduleList entries b |} ->
  forall e, In e entries -> exists s, In s (schedules db) /\ e = schedule_entry_of db s.
Proof.
  intros db user date entries b H e He. unfold get_schedules in H.
  destruct (filter_by_date date (schedules db)) as [rows|ex] eqn:Ed;
    [|destruct ex; unfold error in H; discriminate H].
  rewrite map_result_entries in H. injection H as <- _.
  apply in_map_iff in He as (s & <- & Hs). exists s. split; [|reflexivity].
  apply (filter_by_date_incl _ _ _ Ed).
  unfold filter_by_role in Hs. destruct (String.eqb (u_role user) "client");
    [apply filter_In in Hs; apply Hs | exact Hs].
Qed.

(** X5: a successful [DELETE /api/campaigns/<id>] removes the campaign and,
    by the cascade of its [schedules] relationship, exactly its schedules;
    afterwards no [GET /api/schedule], by any caller and for any date,
    lists a schedule of that campaign. *)
Theorem delete_campaign_cascade : forall db user id a db',
  delete_campaign db user id = (a, db') -> ans_status a = 200 ->
  campaign_by_id db' id = None /\
  (forall c, In c (campaigns db') <-> In c (campaigns db) /\ c_id c <> id) /\
  (forall s, In s (schedules db') <-> In s (schedules db) /\ s_campaign_id s <> id) /\
  (forall user' date entries b,
     get_schedules db' user' date = {| status := 200; body := BScheduleList entries b |} ->
     Forall (fun e => d_campaign_id (e_schedule e) <> id) entries).
Proof.
  intros db user id a db' H Hs. unfold delete_campaign in H.
  destruct (campaign_by_id db id) as [c|]; [|injection H as <- _; discriminate Hs].
  destruct (permission_denied user c); [injection H as <- _; discriminate Hs|].
  injection H as _ <-.
  assert (Hc : forall c, In c (campaigns (remove_campaign db id)) <->
                         In c (campaigns db) /\ c_id c <> id).
  { intro c0. simpl. rewrite filter_In, negb_true_iff, Z.eqb_neq. reflexivity. }
  assert (Hr : forall s, In s (schedules (remove_campaign db id)) <->
                         In s (schedules db) /\ s_campaign_id s <> id).
  { intro s. simpl. rewrite filter_In, negb_true_iff, Z.eqb_neq. reflexivity. }
  split; [|split; [exact Hc|split; [exact Hr|]]].
  - apply find_none_intro. intros c0 Hin. apply Hc in Hin as [_ Hne].
    now apply Z.eqb_neq.
  - intros user' date entries b Hg. apply Forall_forall. intros e He.
    destruct (get_schedules_entries_from _ _ _ _ _ Hg e He) as (s & Hin & ->).
    apply Hr in Hin as [_ Hne]. exact Hne.
Qed.

Lemma delete_campaign_cascade_witness :
  Forall (fun e => d_campaign_id (e_schedule e) <> 1)
    [schedule_entry_of (snd (delete_campaign sample_db2 sample_admin 1))
       {| s_id := 2; s_campaign_id := 2; s_day_of_week := 2;
          s_start_time := (10, 0); s_end_time := (11, 0);
          s_is_active := JBool true; s_created_at := "2024-01-01T00:00:00" |}].
Proof.
  destruct (delete_campaign_cascade sample_db2 sample_admin 1
              (fst (delete_campaign sample_db2 sample_admin 1))
              (snd (delete_campaign sample_db2 sample_admin 1))
              (surjective_pairing _) eq_refl) as (_ & _ & _ & H).
  apply (H sample_admin None _ true). vm_compute. reflexivity.
Defined.

Lemma assigned_obj : forall kv k, assigned (JObj kv) k = Ok (dict_get kv k).
Proof.
  intros kv k. unfold assigned. simpl.
  destruct (dict_get kv k); reflexivity.
Qed.

Lemma iso_date_update_absent : forall fromiso kv k old,
  dict_get kv k = None -> iso_date_update fromiso (JObj kv) k old = Ok old.
Proof. intros fromiso kv k old H. unfold iso_date_update. simpl. now rewrite H. Qed.

(** X6: the guard lets a campaign's assigned client, who need be neither
    admin nor creator, set [client_id] to any id SQLite can store; the
    answer is 200 with the campaign so reassigned and its [updated_at] set
    to the request's time, every other column unchanged, and afterwards
    that client no longer gets the campaign from [GET /api/campaigns]. *)
Theorem update_campaign_reassign : forall fromiso nt db user id c k,
  campaign_by_id db id = Some c -> c_client_id c = Some (u_id user) ->
  - 2 ^ 63 <= k < 2 ^ 63 ->
  let c' := {| c_id := c_id c; c_name := c_name c; c_description := c_description c;
               c_status := c_status c; c_start_date := c_start_date c;
               c_end_date := c_end_date c; c_created_by := c_created_by c;
               c_client_id := Some k; c_created_at := c_created_at c;
               c_updated_at := now db |} in
  update_campaign fromiso nt db user id (JObj [("client_id", JInt k)]) =
    ({| ans_status := 200; ans_body := RCampaign c' |}, replace_campaign db c') /\
  (u_role user = "client" -> k <> u_id user ->
     forall c0, In c0 (campaigns_for (replace_campaign db c') user) -> c_id c0 <> id).
Proof.
  intros fromiso nt db user id c k Hc Hcl Hk c'.
  assert (Hid : c_id c = id).
  { unfold campaign_by_id in Hc. apply find_some in Hc as [_ E]. now apply Z.eqb_eq. }
  assert (Hd : permission_denied user c = false).
  { unfold permission_denied, client_is. rewrite Hcl, Z.eqb_refl.
    now rewrite !andb_false_r. }
  assert (Hk' : sqlite_int k = Ok k).
  { unfold sqlite_int.
    destruct (Z.leb_spec (- 2 ^ 63) k); destruct (Z.ltb_spec k (2 ^ 63));
      simpl; first [reflexivity | lia]. }
  split.
  - unfold update_campaign. rewrite Hc, Hd.
    unfold update_campaign_try. rewrite !assigned_obj.
    rewrite !iso_date_update_absent by reflexivity.
    simpl. rewrite Hk'. reflexivity.
  - intros Hr Hne c0 Hin. unfold campaigns_for in Hin.
    replace (String.eqb (u_role user) "admin") with false in Hin by (rewrite Hr; reflexivity).
    rewrite Hr in Hin. simpl in Hin.
    apply filter_In in Hin as [Hin Hcl0].
    apply in_map_iff in Hin as (x & Ex & Hx).
    subst c0. unfold client_is in Hcl0. simpl in Hcl0 |- *.
    destruct (c_id x =? c_id c) eqn:E.
    + simpl in Hcl0. apply Z.eqb_eq in Hcl0. congruence.
    + apply Z.eqb_neq in E. congruence.
Qed.

Lemma update_campaign_reassign_witness :
  fst (update_campaign (fun s => Ok s) sample_numeric_text
         sample_db sample_client 1 (JObj [("client_id", JInt 8)])) =
  {| ans_status := 200;
     ans_body := RCampaign {| c_id := 1; c_name := JStr "Spring"; c_description := JNull;
                              c_status := JStr "active"; c_start_date := None;
                              c_end_date := None; c_created_by := 1;
                              c_client_id := Some 8;
                              c_created_at := "2023-12-01T00:00:00";
                              c_updated_at := "2024-01-01T00:00:00" |} |}.
Proof.
  rewrite (proj1 (update_campaign_reassign (fun s => Ok s) sample_numeric_text
                    sample_db sample_client 1 sample_campaign 8 eq_refl eq_refl
                    ltac:(lia))).
  reflexivity.
Defined.

(** X7: for a caller who passes the guard, an empty JSON object changes
    no column but [updated_at], set to the request's time (200), while a
    body that is not JSON ([null]) or that sets [name] or [status] to
    [null] (NOT NULL columns) is answered 500 and changes nothing. *)
Theorem update_campaign_bodies : forall fromiso nt db user id c,
  campaign_by_id db id = Some c -> permission_denied user c = false ->
  let c' := {| c_id := c_id c; c_name := c_name c; c_description := c_description c;
               c_status := c_status c; c_start_date := c_start_date c;
               c_end_date := c_end_date c; c_created_by := c_created_by c;
               c_client_id := c_client_id c; c_created_at := c_created_at c;
               c_updated_at := now db |} in
  update_campaign fromiso nt db user id (JObj []) =
    ({| ans_status := 200; ans_body := RCampaign c' |}, replace_campaign db c') /\
  update_campaign fromiso nt db user id JNull = (fail 500 "Failed to update campaign", db) /\
  (forall kv, dict_get kv "name" = Some JNull \/ dict_get kv "status" = Some JNull ->
     update_campaign fromiso nt db user id (JObj kv) =
       (fail 500 "Failed to update campaign", db)).
Proof.
  intros fromiso nt db user id c Hc Hd c'.
  unfold update_campaign. rewrite Hc, Hd. split; [|split].
  - unfold update_campaign_try. rewrite !assigned_obj.
    rewrite !iso_date_update_absent by reflexivity. reflexivity.
  - reflexivity.
  - intros kv Hnull.
    assert (Hr : exists e, update_campaign_try fromiso nt (now db) c (JObj kv) = Raise e).
    { unfold update_campaign_try. rewrite !assigned_obj. cbn [Py.bind].
      destruct (iso_date_update fromiso (JObj kv) "start_date" (c_start_date c));
        cbn [Py.bind]; [|eauto].
      destruct (iso_date_update fromiso (JObj kv) "end_date" (c_end_date c));
        cbn [Py.bind]; [|eauto].
      destruct Hnull as [Hn|Hn].
      - rewrite Hn. simpl. eauto.
      - destruct (text_update false (dict_get kv "name") (c_name c)); cbn [Py.bind]; [|eauto].
        destruct (text_update true (dict_get kv "description") (c_description c));
          cbn [Py.bind]; [|eauto].
        rewrite Hn. simpl. eauto. }
    destruct Hr as [e ->]. reflexivity.
Qed.

Lemma update_campaign_bodies_witness :
  update_campaign (fun s => Ok s) sample_numeric_text sample_db sample_admin 1
    (JObj [("name", JNull)]) = (fail 500 "Failed to update campaign", sample_db).
Proof.
  apply (proj2 (proj2 (update_campaign_bodies (fun s => Ok s) sample_numeric_text
                         sample_db sample_admin 1 sample_campaign eq_refl eq_refl))).
  left. reflexivity.
Defined.

(** *** User management *)

Lemma replace_account_roles : forall users a',
  In (acc_role a') roles ->
  Forall (fun u => In (acc_role u) roles) users ->
  Forall (fun u => In (acc_role u) roles) (replace_account users a').
Proof.
  intros users a' Ha H. unfold replace_account. apply Forall_map.
  eapply Forall_impl; [|exact H]. intros u Hu. simpl.
  destruct (acc_id u =? acc_id a'); assumption.
Qed.

(** X8: [PUT /api/users/<id>/role] either answers 200 having set that
    user's role to one of ['admin'], ['client'], ['viewer'] (other rows
    untouched), or answers another status and changes nothing; so roles
    stay within those three.  A role outside them is answered 400. *)
Theorem update_user_role_outcome :
  (forall users uid data a users',
     update_user_role users uid data = (a, users') ->
     ((exists u r, account_by_id users uid = Some u /\ In r roles /\
         a = {| ans_status := 200; ans_body := RUser (with_role u r) None |} /\
         users' = replace_account users (with_role u r)) \/
      (ans_status a <> 200 /\ users' = users)) /\
     (Forall (fun u => In (acc_role u) roles) users ->
      Forall (fun u => In (acc_role u) roles) users')) /\
  (forall users uid u kv s,
     account_by_id users uid = Some u -> dict_get kv "role" = Some (JStr s) ->
     ~ In s roles ->
     update_user_role users uid (JObj kv) = (fail 400 "Valid role is required", users)).
Proof.
  split.
  - intros users uid data a users' H.
    assert (Hout : (exists u r, account_by_id users uid = Some u /\ In r roles /\
                      a = {| ans_status := 200; ans_body := RUser (with_role u r) None |} /\
                      users' = replace_account users (with_role u r)) \/
                   (ans_status a <> 200 /\ users' = users)).
    { unfold update_user_role in H.
      destruct (account_by_id users uid) as [u|] eqn:Eu;
        [|injection H as <- <-; right; split; [discriminate|reflexivity]].
      destruct (py_contains data "role") as [[|]|e]; cbn [Py.bind] in H;
        [|injection H as <- <-; right; split; [discriminate|reflexivity]
         |injection H as <- <-; right; split; [discriminate|reflexivity]].
      destruct (getitem data "role") as [r|e]; cbn [Py.bind] in H;
        [|injection H as <- <-; right; split; [discriminate|reflexivity]].
      destruct r as [| | |s| |];
        try (injection H as <- <-; right; split; [discriminate|reflexivity]).
      destruct (existsb (String.eqb s) roles) eqn:Es;
        [|injection H as <- <-; right; split; [discriminate|reflexivity]].
      injection H as <- <-. left. exists u, s. repeat split; auto.
      apply existsb_exists in Es as (x & Hx & Ex). apply String.eqb_eq in Ex.
      now subst. }
    split; [exact Hout|]. intro Hroles.
    destruct Hout as [(u & r & _ & Hr & _ & ->)|(_ & ->)]; [|exact Hroles].
    apply replace_account_roles; assumption.
  - intros users uid u kv s Hu Hk Hs. unfold update_user_role. rewrite Hu.
    unfold py_contains, getitem. rewrite Hk. cbn [Py.bind].
    destruct (existsb (String.eqb s) roles) eqn:Es; [|reflexivity].
    apply existsb_exists in Es as (x & Hx & Ex). apply String.eqb_eq in Ex.
    subst. contradiction.
Qed.

Lemma update_user_role_outcome_witness :
  update_user_role sample_accounts 9 (JObj [("role", JStr "superuser")]) =
    (fail 400 "Valid role is required", sample_accounts).
Proof.
  apply (proj2 update_user_role_outcome sample_accounts 9 sample_eve
           [("role", JStr "superuser")] "superuser" eq_refl eq_refl).
  simpl. intuition discriminate.
Defined.

Lemma account_by_id_some : forall users id u,
  account_by_id users id = Some u -> In u users /\ acc_id u = id.
Proof.
  intros users id u H. unfold account_by_id in H.
  apply find_some in H as [Hin E]. split; [exact Hin|]. now apply Z.eqb_eq.
Qed.

Lemma account_by_id_replace : forall users a',
  account_by_id users (acc_id a') <> None ->
  account_by_id (replace_account users a') (acc_id a') = Some a'.
Proof.
  intros users a' H. induction users as [|x users IH]; [contradiction H; reflexivity|].
  unfold account_by_id, replace_account in *. simpl in *.
  destruct (acc_id x =? acc_id a') eqn:E; simpl.
  - now rewrite Z.eqb_refl.
  - rewrite E. apply IH. exact H.
Qed.

Lemma unique_ids : forall users x y,
  NoDup (map acc_id users) -> In x users -> In y users -> acc_id x = acc_id y -> x = y.
Proof.
  induction users as [|a users IH]; intros x y Hd Hx Hy E; [destruct Hx|].
  simpl in Hd. inversion Hd as [|? ? Hn Hd']; subst.
  destruct Hx as [<-|Hx], Hy as [<-|Hy]; auto.
  - exfalso. apply Hn. rewrite E. now apply in_map.
  - exfalso. apply Hn. rewrite <- E. now apply in_map.
Qed.

Lemma replace_account_twice : forall users a1 a2,
  acc_id a1 = acc_id a2 ->
  replace_account (replace_account users a1) a2 = replace_account users a2.
Proof.
  intros users a1 a2 E. unfold replace_account. rewrite map_map.
  apply map_ext. intro x. rewrite <- E.
  destruct (acc_id x =? acc_id a1) eqn:Ex; [now rewrite Z.eqb_refl|now rewrite Ex].
Qed.

Lemma replace_account_same : forall users u,
  NoDup (map acc_id users) -> In u users -> replace_account users u = users.
Proof.
  intros users u Hd Hu. unfold replace_account.
  rewrite <- (map_id users) at 2. apply map_ext_in. intros x Hx.
  destruct (acc_id x =? acc_id u) eqn:E; [|reflexivity].
  apply Z.eqb_eq in E. symmetry. exact (unique_ids users x u Hd Hx Hu E).
Qed.

(** X9: [POST /api/users/<id>/toggle-status] refuses the caller's own
    account (400, nothing changed); for another existing user it flips
    that user's [is_active], answers 200 with the action ['activated'] or
    ['deactivated'] matching the new value, and, ids being unique,
    toggling the same user twice restores the table. *)
Theorem toggle_user_status_flip :
  (forall users sid u,
     account_by_id users sid = Some u ->
     toggle_user_status users sid sid = (fail 400 "Cannot deactivate your own account", users)) /\
  (forall users sid uid u,
     account_by_id users uid = Some u -> uid <> sid ->
     toggle_user_status users sid uid =
       ({| ans_status := 200;
           ans_body := RUser (with_active u (negb (acc_is_active u)))
                             (Some (if negb (acc_is_active u) then "activated"
                                    else "deactivated")) |},
        replace_account users (with_active u (negb (acc_is_active u))))) /\
  (forall users sid uid,
     NoDup (map acc_id users) -> uid <> sid ->
     snd (toggle_user_status (snd (toggle_user_status users sid uid)) sid uid) = users).
Proof.
  split; [|split].
  - intros users sid u H. unfold toggle_user_status. rewrite H.
    apply account_by_id_some in H as [_ ->]. now rewrite Z.eqb_refl.
  - intros users sid uid u H Hne. unfold toggle_user_status. rewrite H.
    apply account_by_id_some in H as [_ Hid]. rewrite Hid.
    apply Z.eqb_neq in Hne. rewrite Hne. reflexivity.
  - intros users sid uid Hd Hne.
    unfold toggle_user_status at 2.
    destruct (account_by_id users uid) as [u|] eqn:Eu.
    + pose proof (account_by_id_some _ _ _ Eu) as [Hin Hid].
      assert (Hne' : (acc_id u =? sid) = false) by (apply Z.eqb_neq; congruence).
      rewrite Hne'. simpl snd.
      set (u1 := with_active u (negb (acc_is_active u))).
      assert (E1 : account_by_id (replace_account users u1) uid = Some u1).
      { replace uid with (acc_id u1) by (simpl; exact Hid).
        apply account_by_id_replace. simpl. rewrite Hid, Eu. discriminate. }
      unfold toggle_user_status. rewrite E1.
      replace (acc_id u1 =? sid) with false by (symmetry; simpl; exact Hne'). simpl snd.
      rewrite replace_account_twice by reflexivity.
      rewrite negb_involutive.
      replace (with_active u1 (acc_is_active u)) with u
        by (unfold u1; destruct u; reflexivity).
      apply replace_account_same; assumption.
    + simpl snd. unfold toggle_user_status. rewrite Eu. reflexivity.
Qed.

Lemma toggle_user_status_flip_witness :
  snd (toggle_user_status (snd (toggle_user_status sample_accounts 1 7)) 1 7) = sample_accounts.
Proof.
  apply (proj2 (proj2 toggle_user_status_flip) sample_accounts 1 7).
  - simpl. repeat constructor; simpl; intuition discriminate.
  - discriminate.
Defined.

(** X10: the user-management routes are admin-only: when the session has
    no user id, or its user is missing or not an admin, both
    [PUT /api/users/<id>/role] and [POST /api/users/<id>/toggle-status]
    redirect and leave the table unchanged; for an admin session they
    answer what the handler answers. *)
Theorem user_routes_admin_only : forall sid uid data users,
  (~ (exists k u, sid = Some k /\ account_by_id users k = Some u /\ acc_role u = "admin") ->
     (exists target, route_update_user_role sid uid data users = (Redirect target, users)) /\
     (exists target, route_toggle_user_status sid uid users = (Redirect target, users))) /\
  (forall k u, sid = Some k -> account_by_id users k = Some u -> acc_role u = "admin" ->
     route_update_user_role sid uid data users =
       (Respond (fst (update_user_role users uid data)), snd (update_user_role users uid data)) /\
     route_toggle_user_status sid uid users =
       (Respond (fst (toggle_user_status users k uid)), snd (toggle_user_status users k uid))).
Proof.
  intros sid uid data users. split.
  - intro Hn. unfold route_update_user_role, route_toggle_user_status,
      login_required, admin_required.
    destruct sid as [k|]; [|split; eexists; reflexivity].
    destruct (account_by_id users k) as [u|] eqn:Eu; [|split; eexists; reflexivity].
    destruct (String.eqb (acc_role u) "admin") eqn:Er; [|split; eexists; reflexivity].
    apply String.eqb_eq in Er. exfalso. apply Hn. eauto.
  - intros k u -> Hu Hr. unfold route_update_user_role, route_toggle_user_status,
      login_required, admin_required, respond.
    rewrite Hu, Hr. simpl.
    destruct (update_user_role users uid data), (toggle_user_status users k uid).
    split; reflexivity.
Qed.

Lemma user_routes_admin_only_witness :
  route_update_user_role (Some 9) 9 (JObj [("role", JStr "admin")]) sample_accounts =
    (Redirect "dashboard", sample_accounts).
Proof.
  destruct (proj1 (user_routes_admin_only (Some 9) 9 (JObj [("role", JStr "admin")])
                     sample_accounts)) as [[target Ht] _].
  - intros (k & u & Hk & Hu & Hr). injection Hk as <-.
    injection Hu as <-. discriminate Hr.
  - rewrite Ht. vm_compute in Ht. injection Ht as <-. reflexivity.
Defined.

(** *** Campaign creation and the campaign list *)

Lemma commit_schedules_campaigns : forall ns db db',
  commit_schedules db ns = Ok db' -> campaigns db' = campaigns db.
Proof.
  intros ns db db' H. rewrite commit_schedules_rows in H.
  destruct (materialize_from (next_schedule_id db) (now db) ns); [|discriminate H].
  injection H as <-. reflexivity.
Qed.

Lemma create_campaign_created : forall fromiso nt db user data r db',
  create_campaign fromiso nt db user data = (r, db') -> status r = 201 ->
  exists c ns, campaign_prefix fromiso nt db user data = Ok (Some c) /\
               r = {| status := 201; body := BCampaign c |} /\
               commit_schedules (insert_campaign db c) ns = Ok db'.
Proof.
  intros fromiso nt db user data r db' H Hs. unfold create_campaign in H.
  destruct (campaign_prefix fromiso nt db user data) as [[c|]|e] eqn:Ep;
    cbn [Py.bind] in H; [|injection H as <- _; discriminate Hs|injection H as <- _; discriminate Hs].
  destruct (campaign_schedules c data) as [ns|e]; cbn [Py.bind] in H;
    [|injection H as <- _; discriminate Hs].
  destruct (commit_schedules (insert_campaign db c) ns) as [db2|e] eqn:Ec;
    cbn [Py.bind] in H; [|injection H as <- _; discriminate Hs].
  injection H as <- <-. exists c, ns. auto.
Qed.

Lemma campaign_prefix_client : forall fromiso nt db user kv c,
  u_role user = "client" ->
  (forall v, dict_get kv "client_id" = Some v -> truthy v = false) ->
  campaign_prefix fromiso nt db user (JObj kv) = Ok (Some c) ->
  c_created_by c = u_id user /\ c_client_id c = Some (u_id user).
Proof.
  intros fromiso nt db user kv c Hr Hcid Hp.
  assert (Hd : exists v, dict_get_default (JObj kv) "client_id" JNull = Ok v /\
                         truthy v = false).
  { simpl. destruct (dict_get kv "client_id") eqn:E; eauto. }
  destruct Hd as (v & Hv & Ht).
  unfold campaign_prefix in Hp.
  destruct (if negb (truthy (JObj kv)) then Ok false else py_contains (JObj kv) "name")
    as [[|]|e]; cbn [Py.bind negb] in Hp; try discriminate Hp.
  rewrite Hv in Hp. cbn [Py.bind] in Hp.
  replace (String.eqb (u_role user) "client") with true in Hp by (rewrite Hr; reflexivity).
  rewrite Ht in Hp. cbn [negb andb] in Hp.
  repeat lazymatch type of Hp with
  | Py.bind (client_id_value _ _) _ = _ => fail
  | Py.bind ?m _ = _ => destruct m; cbn [Py.bind] in Hp; try discriminate Hp
  end.
  destruct (client_id_value nt (JInt (u_id user))) as [o|e] eqn:Ec;
    cbn [Py.bind] in Hp; [|discriminate Hp].
  injection Hp as <-. cbn [c_created_by c_client_id]. split; [reflexivity|].
  unfold client_id_value, sqlite_int in Ec.
  destruct ((- 2 ^ 63 <=? u_id user) && (u_id user <? 2 ^ 63)); cbn [Py.bind] in Ec;
    [injection Ec as <-; reflexivity|discriminate Ec].
Qed.

(** X11: when a client creates a campaign without a (truthy) [client_id],
    the campaign is assigned to that client and created by that client,
    and from then on [GET /api/campaigns] by the client lists it after the
    campaigns it listed before. *)
Theorem client_campaign_self_assigned : forall fromiso nt db user kv r db',
  u_role user = "client" ->
  (forall v, dict_get kv "client_id" = Some v -> truthy v = false) ->
  create_campaign fromiso nt db user (JObj kv) = (r, db') -> status r = 201 ->
  exists c, r = {| status := 201; body := BCampaign c |} /\
            c_created_by c = u_id user /\ c_client_id c = Some (u_id user) /\
            campaigns_for db' user = (campaigns_for db user ++ [c])%list.
Proof.
  intros fromiso nt db user kv r db' Hr Hcid H Hs.
  destruct (create_campaign_created _ _ _ _ _ _ _ H Hs) as (c & ns & Hp & -> & Hcommit).
  exists c. split; [reflexivity|].
  destruct (campaign_prefix_client _ _ _ _ _ _ Hr Hcid Hp) as [Hcb Hcl].
  split; [exact Hcb|split; [exact Hcl|]].
  unfold campaigns_for. rewrite (commit_schedules_campaigns _ _ _ Hcommit). simpl campaigns.
  replace (String.eqb (u_role user) "admin") with false by (rewrite Hr; reflexivity).
  replace (String.eqb (u_role user) "client") with true by (rewrite Hr; reflexivity).
  assert (Hci : client_is c (u_id user) = true)
    by (unfold client_is; rewrite Hcl; apply Z.eqb_refl).
  rewrite filter_app. cbn [filter]. rewrite Hci. reflexivity.
Qed.

Lemma client_campaign_self_assigned_witness :
  campaigns_for (snd (create_campaign (fun s => Ok s) sample_numeric_text
                        sample_db sample_client (JObj [("name", JStr "Autumn")])))
                sample_client =
  [sample_campaign;
   {| c_id := 2; c_name := JStr "Autumn"; c_description := JNull;
      c_status := JStr "draft"; c_start_date := None; c_end_date := None;
      c_created_by := 7; c_client_id := Some 7;
      c_created_at := "2024-01-01T00:00:00"; c_updated_at := "2024-01-01T00:00:00" |}].
Proof.
  destruct (client_campaign_self_assigned (fun s => Ok s) sample_numeric_text
              sample_db sample_client [("name", JStr "Autumn")] _ _
              eq_refl ltac:(intros v Hv; discriminate Hv)
              (surjective_pairing _) eq_refl) as (c & Hc & _ & _ & ->).
  vm_compute in Hc. injection Hc as <-. reflexivity.
Defined.

(** X12: [POST /api/campaigns] with a JSON object that has no [name] key,
    or with no JSON ([null]), is answered 400 and creates nothing. *)
Theorem create_campaign_requires_name : forall fromiso nt db user kv,
  dict_get kv "name" = None ->
  create_campaign fromiso nt db user (JObj kv) =
    (error 400 "Campaign name is required", db) /\
  create_campaign fromiso nt db user JNull = (error 400 "Campaign name is required", db).
Proof.
  intros fromiso nt db user kv H. split; [|reflexivity].
  unfold create_campaign, campaign_prefix.
  destruct kv as [|kv0 kvs]; [reflexivity|].
  simpl truthy. cbn [negb Py.bind py_contains]. rewrite H. reflexivity.
Qed.

Lemma create_campaign_requires_name_witness :
  create_campaign (fun s => Ok s) sample_numeric_text sample_db sample_admin
    (JObj [("description", JStr "no name")]) =
  (error 400 "Campaign name is required", sample_db).
Proof.
  exact (proj1 (create_campaign_requires_name (fun s => Ok s) sample_numeric_text
                  sample_db sample_admin [("description", JStr "no name")] eq_refl)).
Defined.

(** *** Authentication *)

Lemma find_some_in {A : Type} (f : A -> bool) (l : list A) (a : A) :
  find f l = Some a -> In a l /\ f a = true.
Proof.
  induction l as [|x l IH]; simpl; [discriminate|].
  destruct (f x) eqn:E.
  - intros H; injection H as <-; auto.
  - intros H; destruct (IH H); auto.
Qed.

Lemma existsb_false_forall {A : Type} (f : A -> bool) (l : list A) :
  existsb f l = false -> forall a, In a l -> f a = false.
Proof.
  intros H a Ha. destruct (f a) eqn:E; [|reflexivity].
  assert (existsb f l = true) by (apply existsb_exists; eauto). congruence.
Qed.

Lemma NoDup_app_single {A : Type} (l : list A) (x : A) :
  NoDup l -> ~ In x l -> NoDup (l ++ [x])%list.
Proof.
  intros Hl Hx. apply NoDup_app; auto.
  - constructor; [intros []|constructor].
  - intros y Hy [<-|[]]. contradiction.
Qed.

(** X13: [login] only sets the session to an account of the table that is
    active, whose username is the one submitted and whose stored hash
    checks against the submitted (non-empty) password; a deactivated
    account never gets a session, whatever the password. *)
Theorem login_requires_active_password checkpw users username password next p a :
  login_post checkpw users username password next = (p, Some a) ->
  In a users /\ acc_is_active a = true /\ username = Some (acc_username a) /\
  exists pw, password = Some pw /\ pw <> "" /\ checkpw pw (acc_password_hash a) = true.
Proof.
  unfold login_post.
  destruct username as [un|], password as [pw|]; try discriminate.
  destruct (String.eqb un "" || String.eqb pw "") eqn:Ee; [discriminate|].
  apply orb_false_iff in Ee as [_ Epw].
  destruct (find (fun a0 => String.eqb (acc_username a0) un) users) as [u|] eqn:Ef;
    [|discriminate].
  destruct (checkpw pw (acc_password_hash u) && acc_is_active u) eqn:Ec; [|discriminate].
  intros H; injection H as _ <-.
  apply find_some_in in Ef as [Hin Hun]. apply String.eqb_eq in Hun.
  apply andb_true_iff in Ec as [Hc Ha].
  repeat split; auto.
  - now rewrite Hun.
  - exists pw. repeat split; auto. intros ->. discriminate Epw.
Qed.

Lemma login_requires_active_password_witness :
  (login_post sample_checkpw sample_accounts (Some "eve") (Some "secret9") None
     = (GoTo "dashboard", Some sample_eve)) /\
  (In sample_eve sample_accounts /\ acc_is_active sample_eve = true /\
   Some "eve" = Some (acc_username sample_eve) /\
   exists pw, Some "secret9" = Some pw /\ pw <> "" /\
              sample_checkpw pw (acc_password_hash sample_eve) = true).
Proof.
  split; [vm_compute; reflexivity|].
  apply (login_requires_active_password sample_checkpw sample_accounts
           (Some "eve") (Some "secret9") None (GoTo "dashboard")).
  vm_compute; reflexivity.
Defined.

(** X14: [demo_login] never asks for a password, and only ever sets the
    session for one of the names admin, client1 and viewer1, to the first
    active account of that name in the table; any other name, or a name
    without an active account, redirects to the login page and leaves the
    session as it was. *)
Theorem demo_login_scope users username :
  match demo_login users username with
  | (GoTo "dashboard", Some a) =>
      In username allowed_demo_users /\
      find (fun a0 => String.eqb (acc_username a0) username && acc_is_active a0) users
        = Some a /\
      In a users /\ acc_username a = username /\ acc_is_active a = true
  | (GoTo "login", None) =>
      ~ In username allowed_demo_users \/
      forall a, In a users -> acc_username a = username -> acc_is_active a = false
  | _ => False
  end.
Proof.
  unfold demo_login.
  destruct (existsb (String.eqb username) allowed_demo_users) eqn:Ed; simpl.
  - destruct (find (fun a => String.eqb (acc_username a) username && acc_is_active a) users)
      as [u|] eqn:Ef.
    + pose proof (find_some_in _ _ _ Ef) as [Hin Hu].
      apply andb_true_iff in Hu as [Hn Ha]. apply String.eqb_eq in Hn.
      apply existsb_exists in Ed as [x [Hx Hxe]]. apply String.eqb_eq in Hxe. subst x.
      repeat split; auto.
    + right. intros a Ha Hn.
      pose proof (find_none _ _ Ef a Ha) as Hf. cbv beta in Hf.
      rewrite Hn, String.eqb_refl in Hf. exact Hf.
  - left. intros Hin.
    assert (existsb (String.eqb username) allowed_demo_users = true)
      by (apply existsb_exists; exists username; split; [exact Hin|apply String.eqb_refl]).
    congruence.
Qed.

(** X15: [register] keeps usernames and emails unique and adds at most one
    account: either the table is unchanged, or a single active viewer is
    appended whose username and email are new and whose password was
    confirmed, is at least 6 characters long and is stored hashed. *)
Theorem register_keeps_unique hashpw users new_id username email password confirm :
  NoDup (map acc_username users) -> NoDup (map acc_email users) ->
  let '(_, users') := register_post hashpw users new_id username email password confirm in
  NoDup (map acc_username users') /\ NoDup (map acc_email users') /\
  (users' = users \/
   exists pw a, users' = (users ++ [a])%list /\
     username = Some (acc_username a) /\ email = Some (acc_email a) /\
     password = Some pw /\ confirm = Some pw /\ (6 <= String.length pw)%nat /\
     hashpw pw = Ok (acc_password_hash a) /\
     acc_id a = new_id /\ acc_role a = "viewer" /\ acc_is_active a = true).
Proof.
  intros Hu He. unfold register_post.
  destruct username as [un|], email as [em|], password as [pw|], confirm as [cf|];
    try (split; [|split]; auto; fail).
  repeat match goal with
         | |- context [if ?b then _ else _] =>
             destruct b eqn:?; [try (split; [|split]; auto; fail)|]
         end.
  destruct (hashpw pw) as [h|ex] eqn:Eh; [|split; [|split]; auto].
  match goal with
  | H : negb (String.eqb pw cf) = false |- _ =>
      apply negb_false_iff, String.eqb_eq in H; subst cf
  end.
  match goal with
  | H : Nat.ltb (String.length pw) 6 = false |- _ => apply Nat.ltb_ge in H
  end.
  repeat rewrite map_app; simpl.
  split; [|split].
  - apply NoDup_app_single; auto. intros Hin.
    apply in_map_iff in Hin as [a [Ha Hin]].
    match goal with
    | H : existsb (fun a => String.eqb (acc_username a) un) users = false |- _ =>
        pose proof (existsb_false_forall _ _ H a Hin) as Hf
    end.
    cbv beta in Hf. rewrite Ha, String.eqb_refl in Hf. discriminate.
  - apply NoDup_app_single; auto. intros Hin.
    apply in_map_iff in Hin as [a [Ha Hin]].
    match goal with
    | H : existsb (fun a => String.eqb (acc_email a) em) users = false |- _ =>
        pose proof (existsb_false_forall _ _ H a Hin) as Hf
    end.
    cbv beta in Hf. rewrite Ha, String.eqb_refl in Hf. discriminate.
  - right. eexists pw, _. split; [reflexivity|]. simpl.
    repeat split; auto.
Qed.

Lemma register_keeps_unique_witness :
  NoDup (map acc_username sample_accounts) /\ NoDup (map acc_email sample_accounts) /\
  register_post sample_hashpw sample_accounts 10 (Some "zoe") (Some "zoe@example.com")
    (Some "secret10") (Some "secret10")
  = (GoTo "login",
     (sample_accounts ++
      [{| acc_id := 10; acc_username := "zoe"; acc_email := "zoe@example.com";
          acc_password_hash := "h:secret10"; acc_role := "viewer";
          acc_is_active := true |}])%list) /\
  (let '(_, users') := register_post sample_hashpw sample_accounts 10 (Some "zoe")
                         (Some "zoe@example.com") (Some "secret10") (Some "secret10") in
   NoDup (map acc_username users') /\ NoDup (map acc_email users') /\
   (users' = sample_accounts \/
    exists pw a, users' = (sample_accounts ++ [a])%list /\
      Some "zoe" = Some (acc_username a) /\ Some "zoe@example.com" = Some (acc_email a) /\
      Some "secret10" = Some pw /\ Some "secret10" = Some pw /\
      (6 <= String.length pw)%nat /\
      sample_hashpw pw = Ok (acc_password_hash a) /\
      acc_id a = 10 /\ acc_role a = "viewer" /\ acc_is_active a = true)).
Proof.
  assert (Hu : NoDup (map acc_username sample_accounts)).
  { vm_compute. repeat constructor; simpl; intuition discriminate. }
  assert (He : NoDup (map acc_email sample_accounts)).
  { vm_compute. repeat constructor; simpl; intuition discriminate. }
  split; [exact Hu|]. split; [exact He|]. split; [vm_compute; reflexivity|].
  exact (register_keeps_unique sample_hashpw sample_accounts 10 (Some "zoe")
           (Some "zoe@example.com") (Some "secret10") (Some "secret10") Hu He).
Defined.

(** *** Account settings *)

Lemma find_map_preserving {A : Type} (f : A -> bool) (g : A -> A) (l : list A) :
  (forall x, In x l -> f (g x) = f x) ->
  find f (map g l) = option_map g (find f l).
Proof.
  induction l as [|x l IH]; intros H; simpl; [reflexivity|].
  rewrite (H x (or_introl eq_refl)).
  destruct (f x); [reflexivity|]. apply IH. intros y Hy. apply H. now right.
Qed.

Lemma find_username_unique : forall users u,
  NoDup (map acc_username users) -> In u users ->
  find (fun a => String.eqb (acc_username a) (acc_username u)) users = Some u.
Proof.
  induction users as [|x users IH]; intros u Hd Hu; [destruct Hu|].
  simpl in Hd. inversion Hd as [|? ? Hn Hd']; subst. simpl.
  destruct Hu as [<-|Hu]; [now rewrite String.eqb_refl|].
  destruct (String.eqb (acc_username x) (acc_username u)) eqn:E.
  - apply String.eqb_eq in E. exfalso. apply Hn. rewrite E. now apply in_map.
  - now apply IH.
Qed.

Lemma replace_account_username : forall users u u',
  NoDup (map acc_id users) -> In u users -> acc_id u' = acc_id u ->
  acc_username u' = acc_username u ->
  forall x, In x users ->
  String.eqb (acc_username (if acc_id x =? acc_id u' then u' else x)) (acc_username u)
  = String.eqb (acc_username x) (acc_username u).
Proof.
  intros users u u' Hd Hu Hi Hn x Hx.
  destruct (acc_id x =? acc_id u') eqn:E; [|reflexivity].
  apply Z.eqb_eq in E. rewrite Hi in E.
  rewrite (unique_ids users x u Hd Hx Hu E). now rewrite Hn.
Qed.

(** The logins [login_post] grants, as a lemma the later proofs share. *)
Lemma login_post_some : forall checkpw users username password next p a,
  login_post checkpw users username password next = (p, Some a) ->
  In a users /\ acc_is_active a = true /\ username = Some (acc_username a) /\
  exists pw, password = Some pw /\ pw <> "" /\ checkpw pw (acc_password_hash a) = true.
Proof.
  intros checkpw users username password next p a.
  unfold login_post.
  destruct username as [un|], password as [pw|]; try discriminate.
  destruct (String.eqb un "" || String.eqb pw "") eqn:Ee; [discriminate|].
  apply orb_false_iff in Ee as [_ Epw].
  destruct (find (fun a0 => String.eqb (acc_username a0) un) users) as [u|] eqn:Ef;
    [|discriminate].
  destruct (checkpw pw (acc_password_hash u) && acc_is_active u) eqn:Ec; [|discriminate].
  intros H; injection H as _ <-.
  apply find_some_in in Ef as [Hin Hun]. apply String.eqb_eq in Hun.
  apply andb_true_iff in Ec as [Hc Ha].
  repeat split; auto.
  - now rewrite Hun.
  - exists pw. repeat split; auto. intros ->. discriminate Epw.
Qed.

(** X16: [POST /api/change-password] answers 200 only when the submitted
    current password checks against the stored hash and the new password
    is a string of at least 8 characters; the row then holds the hash of
    the new password, everything else unchanged.  Any other answer
    leaves the table as it was, and a wrong current password is a 400. *)
Theorem change_password_outcome :
  (forall checkpw hashpw users uid data,
   let '(a, users') := change_password checkpw hashpw users uid data in
   (ans_status a = 200 /\
    exists u cur np h,
      account_by_id users uid = Some u /\
      dict_get_default data "current_password" (JStr "") = Ok (JStr cur) /\
      checkpw cur (acc_password_hash u) = true /\
      dict_get_default data "new_password" JNull = Ok (JStr np) /\
      (8 <= String.length np)%nat /\ hashpw np = Ok h /\
      users' = replace_account users
                 {| acc_id := acc_id u; acc_username := acc_username u;
                    acc_email := acc_email u; acc_password_hash := h;
                    acc_role := acc_role u; acc_is_active := acc_is_active u |}) \/
   (ans_status a <> 200 /\ users' = users)) /\
  (forall checkpw hashpw users uid data u cur,
   account_by_id users uid = Some u ->
   dict_get_default data "current_password" (JStr "") = Ok (JStr cur) ->
   checkpw cur (acc_password_hash u) = false ->
   change_password checkpw hashpw users uid data
   = (fail 400 "Current password is incorrect", users)).
Proof.
  split.
  - intros checkpw hashpw users uid data.
    unfold change_password, change_password_try.
    destruct (account_by_id users uid) as [u|] eqn:Eu;
      [|right; split; [discriminate|reflexivity]].
    destruct (dict_get_default data "current_password" (JStr "")) as [cur|ex] eqn:Ec;
      cbn [Py.bind]; [|right; split; [discriminate|reflexivity]].
    destruct cur as [| | |cur| |]; cbn [check_password Py.bind];
      try (right; split; [discriminate|reflexivity]).
    destruct (checkpw cur (acc_password_hash u)) eqn:Eok; cbn [negb];
      [|right; split; [discriminate|reflexivity]].
    destruct (dict_get_default data "new_password" JNull) as [np|ex] eqn:En;
      cbn [Py.bind]; [|right; split; [discriminate|reflexivity]].
    destruct (truthy np) eqn:Et; cbn [negb];
      [|right; split; [discriminate|reflexivity]].
    destruct np as [| | |np|l|kv]; cbn [py_len Py.bind];
      try (right; split; [discriminate|reflexivity]).
    + destruct (Z.of_nat (String.length np) <? 8) eqn:El;
        [right; split; [discriminate|reflexivity]|].
      cbn [set_password]. destruct (hashpw np) as [h|ex] eqn:Eh; cbn [Py.bind];
        [|right; split; [discriminate|reflexivity]].
      left. split; [reflexivity|].
      exists u, cur, np, h. repeat split; auto.
      apply Z.ltb_ge in El. lia.
    + destruct (Z.of_nat (length l) <? 8);
        (right; split; [discriminate|reflexivity]).
    + destruct (Z.of_nat (length (nodup string_dec (map fst kv))) <? 8);
        (right; split; [discriminate|reflexivity]).
  - intros checkpw hashpw users uid data u cur Eu Ec Eok.
    unfold change_password, change_password_try.
    rewrite Eu, Ec. cbn [Py.bind check_password]. now rewrite Eok.
Qed.

Lemma change_password_outcome_witness :
  change_password sample_checkpw sample_hashpw sample_accounts 9
    (JObj [("current_password", JStr "wrong"); ("new_password", JStr "longenough")])
  = (fail 400 "Current password is incorrect", sample_accounts).
Proof.
  apply (proj2 change_password_outcome sample_checkpw sample_hashpw sample_accounts 9
           (JObj [("current_password", JStr "wrong"); ("new_password", JStr "longenough")])
           sample_eve "wrong"); vm_compute; reflexivity.
Defined.

(** X17: when hashing and checking agree and usernames and ids are unique,
    an active user whose password change answered 200 logs in with the new
    password, to that same account. *)
Theorem change_password_then_login checkpw hashpw users uid data next u np :
  (forall p h, hashpw p = Ok h -> checkpw p h = true) ->
  NoDup (map acc_id users) -> NoDup (map acc_username users) ->
  account_by_id users uid = Some u -> acc_is_active u = true ->
  acc_username u <> "" ->
  dict_get_default data "new_password" JNull = Ok (JStr np) ->
  ans_status (fst (change_password checkpw hashpw users uid data)) = 200 ->
  exists p u', login_post checkpw (snd (change_password checkpw hashpw users uid data))
                 (Some (acc_username u)) (Some np) next = (p, Some u') /\
               acc_id u' = uid.
Proof.
  intros Hhc Hdi Hdn Eu Hact Hname Enp Hst.
  pose proof (proj1 change_password_outcome checkpw hashpw users uid data) as Ho.
  destruct (change_password checkpw hashpw users uid data) as [a users'].
  cbn [fst snd] in *.
  destruct Ho as [[_ [u0 [cur [np0 [h [Eu0 [_ [_ [En [Hlen [Eh ->]]]]]]]]]]]|[Hne _]];
    [|contradiction].
  rewrite Eu in Eu0. injection Eu0 as <-. rewrite Enp in En. injection En as <-.
  apply account_by_id_some in Eu as [Hin Hid].
  set (u' := {| acc_id := acc_id u; acc_username := acc_username u;
                acc_email := acc_email u; acc_password_hash := h;
                acc_role := acc_role u; acc_is_active := acc_is_active u |}).
  unfold login_post.
  destruct (String.eqb (acc_username u) "") eqn:E1;
    [apply String.eqb_eq in E1; contradiction|].
  destruct (String.eqb np "") eqn:E2.
  { apply String.eqb_eq in E2. subst np. simpl in Hlen. lia. }
  cbn [orb].
  unfold replace_account.
  rewrite (find_map_preserving _ _ users
             (replace_account_username users u u' Hdi Hin eq_refl eq_refl)).
  rewrite (find_username_unique users u Hdn Hin). cbn [option_map].
  rewrite Z.eqb_refl. cbn [acc_password_hash acc_is_active u'].
  rewrite (Hhc np h Eh), Hact. cbn [andb].
  eexists _, u'. split; [reflexivity|]. exact Hid.
Qed.

Lemma change_password_then_login_witness :
  exists p u', login_post sample_checkpw
                 (snd (change_password sample_checkpw sample_hashpw sample_accounts 9
                         (JObj [("current_password", JStr "secret9");
                                ("new_password", JStr "longenough")])))
                 (Some "eve") (Some "longenough") None = (p, Some u') /\ acc_id u' = 9.
Proof.
  apply (change_password_then_login sample_checkpw sample_hashpw sample_accounts 9
           (JObj [("current_password", JStr "secret9"); ("new_password", JStr "longenough")])
           None sample_eve "longenough").
  - intros p h Hp. unfold sample_hashpw in Hp. injection Hp as <-.
    apply String.eqb_refl.
  - vm_compute. repeat constructor; simpl; intuition discriminate.
  - vm_compute. repeat constructor; simpl; intuition discriminate.
  - vm_compute; reflexivity.
  - reflexivity.
  - discriminate.
  - vm_compute; reflexivity.
  - vm_compute; reflexivity.
Defined.

(** X18: [DELETE /api/account/delete] answers 200 only when the submitted
    password checks; it then keeps the row but marks it inactive and
    clears the session, and, usernames and ids being unique, that
    username can no longer log in with any password.  Any other answer
    changes nothing and keeps the session. *)
Theorem delete_account_deactivates checkpw users uid data :
  let '(a, users', cleared) := delete_account checkpw users uid data in
  (ans_status a = 200 /\ cleared = true /\
   exists u pw, account_by_id users uid = Some u /\
     dict_get_default data "password" (JStr "") = Ok (JStr pw) /\
     checkpw pw (acc_password_hash u) = true /\
     users' = replace_account users (with_active u false) /\
     (NoDup (map acc_id users) -> NoDup (map acc_username users) ->
      account_by_id users' uid = Some (with_active u false) /\
      forall password next p,
        fst (login_post checkpw users' (Some (acc_username u)) password next) = p ->
        login_post checkpw users' (Some (acc_username u)) password next = (p, None))) \/
  (ans_status a <> 200 /\ users' = users /\ cleared = false).
Proof.
  unfold delete_account, delete_account_try.
  destruct (account_by_id users uid) as [u|] eqn:Eu;
    [|right; split; [discriminate|split; reflexivity]].
  destruct (dict_get_default data "password" (JStr "")) as [pw|ex] eqn:Ep;
    cbn [Py.bind]; [|right; split; [discriminate|split; reflexivity]].
  destruct pw as [| | |pw| |]; cbn [check_password Py.bind];
    try (right; split; [discriminate|split; reflexivity]).
  destruct (checkpw pw (acc_password_hash u)) eqn:Eok; cbn [negb];
    [|right; split; [discriminate|split; reflexivity]].
  left. split; [reflexivity|]. split; [reflexivity|].
  exists u, pw. do 3 (split; [first [reflexivity|assumption]|]).
  split; [reflexivity|]. intros Hdi Hdn. split.
  - pose proof Eu as Eu'. apply account_by_id_some in Eu' as [_ Hid].
    rewrite <- Hid at 1. change (acc_id u) with (acc_id (with_active u false)).
    apply account_by_id_replace. cbn [acc_id with_active]. rewrite Hid.
    rewrite Eu. discriminate.
  - intros password next p Hp.
    destruct (login_post checkpw (replace_account users (with_active u false))
                (Some (acc_username u)) password next) as [p' [a|]] eqn:El;
      [|cbn [fst] in Hp; now subst p'].
    exfalso.
    apply login_post_some in El as [Hin [Hact [Hn _]]].
    injection Hn as Hn.
    apply account_by_id_some in Eu as [Hu Hid].
    unfold replace_account in Hin. apply in_map_iff in Hin as [x [Hx Hxin]].
    destruct (acc_id x =? acc_id (with_active u false)) eqn:E.
    + subst a. discriminate Hact.
    + subst a. cbn [acc_id with_active] in E.
      pose proof (find_username_unique users u Hdn Hu) as Hf.
      pose proof (find_username_unique users x Hdn Hxin) as Hf'.
      rewrite <- Hn in Hf'. rewrite Hf in Hf'. injection Hf' as ->.
      now rewrite Z.eqb_refl in E.
Qed.

Lemma delete_account_deactivates_witness :
  NoDup (map acc_id sample_accounts) /\ NoDup (map acc_username sample_accounts) /\
  fst (fst (delete_account sample_checkpw sample_accounts 9
              (JObj [("password", JStr "secret9")]))) =
    {| ans_status := 200; ans_body := RMessage "Account deletion initiated" |} /\
  (let '(a, users', cleared) :=
     delete_account sample_checkpw sample_accounts 9 (JObj [("password", JStr "secret9")]) in
   (ans_status a = 200 /\ cleared = true /\
    exists u pw, account_by_id sample_accounts 9 = Some u /\
      dict_get_default (JObj [("password", JStr "secret9")]) "password" (JStr "")
        = Ok (JStr pw) /\
      sample_checkpw pw (acc_password_hash u) = true /\
      users' = replace_account sample_accounts (with_active u false) /\
      (NoDup (map acc_id sample_accounts) -> NoDup (map acc_username sample_accounts) ->
       account_by_id users' 9 = Some (with_active u false) /\
       forall password next p,
         fst (login_post sample_checkpw users' (Some (acc_username u)) password next) = p ->
         login_post sample_checkpw users' (Some (acc_username u)) password next = (p, None))) \/
   (ans_status a <> 200 /\ users' = sample_accounts /\ cleared = false)).
Proof.
  split; [vm_compute; repeat constructor; simpl; intuition discriminate|].
  split; [vm_compute; repeat constructor; simpl; intuition discriminate|].
  split; [vm_compute; reflexivity|].
  exact (delete_account_deactivates sample_checkpw sample_accounts 9
           (JObj [("password", JStr "secret9")])).
Defined.
